(** * r2dup2: redirecting the standard-error stream to a file and back

    A shallow embedding of [src/dup2.cpp].  The file wraps the POSIX calls
    [dup], [open], [dup2] and [close] in two exported functions,
    [begin_redirect_stderr] and [end_redirect_stderr], and reports a failing
    call through Rcpp's [stop], which throws.

    The development has three layers:
    - the program, written over a small syntax of system calls so that each
      call and its arguments stay visible;
    - a run of a program against an arbitrary operating system (any answers
      to the calls), which records the trace of calls made;
    - a model of the POSIX descriptor table and of a flat file system, used
      where a statement depends on what the calls do. *)

From Stdlib Require Import ZArith List Lia.
From stdpp Require Import base gmap strings pretty.

Local Open Scope string_scope.
Local Open Scope Z_scope.

(** ** Constants of the system headers *)

(** [<unistd.h>]: the descriptor number of the standard-error stream. *)
Definition STDERR_FILENO : Z := 2.

(** [<sys/stat.h>]: the permission bits, whose values POSIX fixes. *)
Definition S_IRUSR : Z := 0x100.
Definition S_IWUSR : Z := 0x80.
Definition S_IRGRP : Z := 0x20.
Definition S_IROTH : Z := 0x4.

(** [<fcntl.h>]: the open flags.  Their values differ between systems, so
    the program is read over any choice of them in which the status flags
    are single settings that do not overlap one another nor the field of the
    access mode. *)
Class Fcntl : Type := {
  O_WRONLY : Z;
  O_CREAT : Z;
  O_APPEND : Z;
  O_TRUNC : Z;
  O_ACCMODE : Z;
  wronly_accmode : Z.land O_WRONLY O_ACCMODE = O_WRONLY;
  creat_pos : 0 < O_CREAT;
  append_pos : 0 < O_APPEND;
  trunc_pos : 0 < O_TRUNC;
  creat_accmode : Z.land O_CREAT O_ACCMODE = 0;
  append_accmode : Z.land O_APPEND O_ACCMODE = 0;
  trunc_accmode : Z.land O_TRUNC O_ACCMODE = 0;
  creat_append : Z.land O_CREAT O_APPEND = 0;
  creat_trunc : Z.land O_CREAT O_TRUNC = 0;
  append_trunc : Z.land O_APPEND O_TRUNC = 0
}.

(** The values of Linux (asm-generic/fcntl.h). *)
#[refine] Instance linux_fcntl : Fcntl := {|
  O_WRONLY := 0x1; O_CREAT := 0x40; O_APPEND := 0x400; O_TRUNC := 0x200;
  O_ACCMODE := 0x3
|}.
Proof. all: reflexivity. Defined.

(** The values of macOS and the BSDs (sys/fcntl.h). *)
#[refine] Definition darwin_fcntl : Fcntl := {|
  O_WRONLY := 0x1; O_CREAT := 0x200; O_APPEND := 0x8; O_TRUNC := 0x400;
  O_ACCMODE := 0x3
|}.
Proof. all: reflexivity. Defined.

(** [has_flag fl f]: every bit of [f] is set in [fl]. *)
Definition has_flag (fl f : Z) : bool := Z.land fl f =? f.

(** The access mode of a set of open flags. *)
Definition access_mode `{Fcntl} (fl : Z) : Z := Z.land fl O_ACCMODE.

(** ** Programs over system calls *)

(** The calls the file makes; [Errno] is the read of the variable [errno]. *)
Inductive syscall : Type :=
  | Dup (fd : Z)
  | Open (path : string) (oflag mode : Z)
  | Dup2 (fd fd2 : Z)
  | Close (fd : Z)
  | Errno.

(** A program returns, stops with a message ([Rcpp::stop] throws, so nothing
    after it runs), or makes a call and goes on with its [int] result. *)
Inductive prog (A : Type) : Type :=
  | Ret (a : A)
  | Stop (msg : string)
  | Call (c : syscall) (k : Z → prog A).
Arguments Ret {A} a.
Arguments Stop {A} msg.
Arguments Call {A} c k.

Fixpoint bind {A B} (p : prog A) (f : A → prog B) : prog B :=
  match p with
  | Ret a => f a
  | Stop msg => Stop msg
  | Call c k => Call c (λ r, bind (k r) f)
  end.

Declare Scope prog_scope.
Delimit Scope prog_scope with prog.
Notation "x <- p ;; q" := (bind p (λ x, q))
  (at level 100, p at next level, right associativity) : prog_scope.
Notation "p ;; q" := (bind p (λ _, q))
  (at level 100, right associativity) : prog_scope.
Local Open Scope prog_scope.

Definition call (c : syscall) : prog Z := Call c Ret.
Definition dup (fd : Z) : prog Z := call (Dup fd).
Definition open (path : string) (oflag mode : Z) : prog Z :=
  call (Open path oflag mode).
Definition dup2 (fd fd2 : Z) : prog Z := call (Dup2 fd fd2).
Definition close (fd : Z) : prog Z := call (Close fd).
Definition errno : prog Z := call Errno.

(** [stop(fmt, ...)]: the message is already formatted. *)
Definition stop (msg : string) : prog unit := Stop msg.

(** [if (c) { body }] with no else branch. *)
Definition when (c : bool) (body : prog unit) : prog unit :=
  if c then body else Ret tt.

(** The conversion [%d] of an [int]. *)
Definition fmt_d (n : Z) : string := pretty n.

(** ** The functions of dup2.cpp *)

Section Program.
Context `{Fcntl}.

(** [int get_oflag(String mode)]. *)
Definition get_oflag (mode : string) : prog Z :=
  if String.eqb mode "w" then
    Ret (Z.lor O_WRONLY O_CREAT)
  else if String.eqb mode "a" then
    Ret (Z.lor O_WRONLY O_APPEND)
  else
    (stop ("Unrecognized mode: " +:+ mode) ;;
     Ret (-1)).

(** The mode string chosen by [get_oflag(bool append)]. *)
Definition mode_of_append (append : bool) : string :=
  if append then "a" else "w".

(** [int get_oflag(bool append)]. *)
Definition get_oflag_bool (append : bool) : prog Z :=
  let mode := mode_of_append append in
  oflag <- get_oflag mode ;;
  Ret oflag.

(** The permission bits passed to [open]. *)
Definition open_mode : Z :=
  Z.lor (Z.lor (Z.lor S_IRUSR S_IWUSR) S_IRGRP) S_IROTH.

(** [int begin_redirect_stderr(String filepath, bool append = false)]. *)
Definition begin_redirect_stderr (filepath : string) (append : bool) : prog Z :=
  old_stderr <- dup STDERR_FILENO ;;
  when (old_stderr <? 0)
    (e <- errno ;;
     stop ("Error while calling dup in begin_redirect_stderr: errno=" +:+ fmt_d e)) ;;
  oflag <- get_oflag_bool append ;;
  let mode := open_mode in
  fd <- open filepath oflag mode ;;
  when (fd <? 0)
    (e <- errno ;;
     stop ("Error while calling open in begin_redirect_stderr: errno=" +:+ fmt_d e)) ;;
  res <- dup2 fd STDERR_FILENO ;;
  when (res <? 0)
    (e <- errno ;;
     stop ("Error while calling dup2 in begin_redirect_stderr: errno=" +:+ fmt_d e)) ;;
  close fd ;;
  Ret old_stderr.

(** [int end_redirect_stderr(int old_stderr)]. *)
Definition end_redirect_stderr (old_stderr : Z) : prog Z :=
  res <- dup2 old_stderr STDERR_FILENO ;;
  when (res <? 0)
    (e <- errno ;;
     stop ("Error while calling dup2 in end_redirect_stderr: errno=" +:+ fmt_d e)) ;;
  close old_stderr ;;
  Ret res.

End Program.

(** ** Running a program *)

(** One call made and the value it returned. *)
Record event : Type := Ev { ev_call : syscall; ev_ret : Z }.

Inductive outcome (A : Type) : Type :=
  | Returned (a : A)
  | Raised (msg : string).
Arguments Returned {A} a.
Arguments Raised {A} msg.

(** The result of a run: the calls made in order, how the program ended and
    the state the operating system is left in. *)
Record run (A W : Type) : Type :=
  Run { trace : list event; result : outcome A; final : W }.
Arguments Run {A W} trace result final.
Arguments trace {A W} r.
Arguments result {A W} r.
Arguments final {A W} r.

(** An operating system answers each call and moves to a new state. *)
Definition handler (W : Type) : Type := syscall → W → Z * W.

Fixpoint exec {A W} (h : handler W) (p : prog A) (w : W) : run A W :=
  match p with
  | Ret a => Run [] (Returned a) w
  | Stop msg => Run [] (Raised msg) w
  | Call c k =>
      let '(r, w') := h c w in
      let rest := exec h (k r) w' in
      Run (Ev c r :: trace rest) (result rest) (final rest)
  end.

(** ** A model of the POSIX descriptor table *)

(** An open file description: the path it was opened on and its flags. *)
Record ofd : Type := Ofd { ofd_path : string; ofd_flags : Z }.

(** What the file system holds at a path: nothing yet, in a directory that
    exists ([Vacant]); a regular file the process may write ([Regular]); or
    something the process may not open ([Forbidden]).  A path that is not in
    the map has a missing directory component. *)
Inductive node : Type :=
  | Vacant
  | Regular (content : list Byte.byte)
  | Forbidden.

Record os : Type := Os {
  fdt : gmap Z ofd;
  files : gmap string node;
  nofile : nat;
  last_errno : Z
}.

(** [<errno.h>]. *)
Definition ENOENT : Z := 2.
Definition EBADF : Z := 9.
Definition EACCES : Z := 13.
Definition EMFILE : Z := 24.

Definition set_fdt (t : gmap Z ofd) (s : os) : os :=
  Os t (files s) (nofile s) (last_errno s).
Definition set_files (f : gmap string node) (s : os) : os :=
  Os (fdt s) f (nofile s) (last_errno s).

(** A failing call returns -1 and sets [errno]. *)
Definition fail (e : Z) (s : os) : Z * os :=
  (-1, Os (fdt s) (files s) (nofile s) e).

(** The lowest descriptor number that is not open, below the limit. *)
Definition lowest_free (t : gmap Z ofd) (limit : nat) : option Z :=
  List.find (λ fd, bool_decide (t !! fd = None)) (seqZ 0 (Z.of_nat limit)).

(** A failed call changes nothing but [errno], which it sets to a non-zero
    code. *)
Definition failure (s : os) (r : Z) (s' : os) : Prop :=
  r = -1 ∧ last_errno s' ≠ 0 ∧
  fdt s' = fdt s ∧ files s' = files s ∧ nofile s' = nofile s.

Section Posix.
Context `{Fcntl}.

Definition posix_dup (fd : Z) (s : os) : Z * os :=
  match fdt s !! fd with
  | None => fail EBADF s
  | Some d =>
      match lowest_free (fdt s) (nofile s) with
      | None => fail EMFILE s
      | Some n => (n, set_fdt (<[n:=d]> (fdt s)) s)
      end
  end.

Definition posix_open (path : string) (oflag mode : Z) (s : os) : Z * os :=
  match lowest_free (fdt s) (nofile s) with
  | None => fail EMFILE s
  | Some n =>
      let opened := set_fdt (<[n:=Ofd path oflag]> (fdt s)) s in
      match files s !! path with
      | None => fail ENOENT s
      | Some Forbidden => fail EACCES s
      | Some Vacant =>
          if has_flag oflag O_CREAT
          then (n, set_files (<[path:=Regular []]> (files s)) opened)
          else fail ENOENT s
      | Some (Regular _) =>
          if has_flag oflag O_TRUNC
          then (n, set_files (<[path:=Regular []]> (files s)) opened)
          else (n, opened)
      end
  end.

Definition posix_dup2 (fd fd2 : Z) (s : os) : Z * os :=
  match fdt s !! fd with
  | None => fail EBADF s
  | Some d =>
      if (0 <=? fd2) && (fd2 <? Z.of_nat (nofile s)) then
        if fd =? fd2 then (fd2, s)
        else (fd2, set_fdt (<[fd2:=d]> (fdt s)) s)
      else fail EBADF s
  end.

Definition posix_close (fd : Z) (s : os) : Z * os :=
  match fdt s !! fd with
  | None => fail EBADF s
  | Some _ => (0, set_fdt (delete fd (fdt s)) s)
  end.

Definition posix : handler os := λ c s,
  match c with
  | Dup fd => posix_dup fd s
  | Open path oflag mode => posix_open path oflag mode s
  | Dup2 fd fd2 => posix_dup2 fd fd2 s
  | Close fd => posix_close fd s
  | Errno => (last_errno s, s)
  end.

End Posix.

(** The description the standard-error slot refers to. *)
Definition stderr_slot (s : os) : option ofd := fdt s !! STDERR_FILENO.

(** A process whose three standard streams are on the terminal; the
    directory holds a log with some text and has room for new files. *)
Definition tty : ofd := Ofd "/dev/tty" 2.
Definition s0 : os :=
  Os (<[0:=tty]> (<[1:=tty]> (<[2:=tty]> ∅)))
     (<["old.err":=Regular [Byte.x6f; Byte.x6c; Byte.x64]]>
        (<["out.err":=Vacant]> (<["new.err":=Vacant]> ∅)))
     16 0.

(** The state after [begin_redirect_stderr("out.err", false)] from [s0]. *)
Definition s_redirected : os :=
  final (exec posix (begin_redirect_stderr "out.err" false) s0).

(** Further states.  In [s_closed] the standard-error descriptor is not
    open; in [s_full] the descriptor table is full; in [s_tight] one
    descriptor is left; in [s_low] the limit was lowered to 2 while the
    standard-error descriptor stayed open. *)
Definition s_closed : os :=
  Os (<[0:=tty]> (<[1:=tty]> ∅)) (files s0) 16 0.
Definition s_full : os :=
  Os (fdt s0) (files s0) 3 0.
Definition s_tight : os :=
  Os (fdt s0) (files s0) 4 0.
Definition s_low : os :=
  Os (<[2:=tty]> ∅) (files s0) 2 0.

(** The file system after a successful [open] with neither truncation nor
    exclusivity: a vacant path now holds an empty file. *)
Definition files_after_open (path : string) (f : gmap string node) :
    gmap string node :=
  match f !! path with
  | Some Vacant => <[path:=Regular []]> f
  | _ => f
  end.

(** ** Shapes of runs, against any operating system *)

(** The three calls whose failure the program checks. *)
Definition fallible (c : syscall) : bool :=
  match c with
  | Dup _ | Open _ _ _ | Dup2 _ _ => true
  | Close _ | Errno => false
  end.

Definition syscall_name (c : syscall) : string :=
  match c with
  | Dup _ => "dup"
  | Open _ _ _ => "open"
  | Dup2 _ _ => "dup2"
  | Close _ => "close"
  | Errno => "errno"
  end.

(** A checked call that returned a negative value. *)
Definition failed (e : event) : bool :=
  fallible (ev_call e) && (ev_ret e <? 0).

Definition is_dup2 (c : syscall) : bool :=
  match c with Dup2 _ _ => true | _ => false end.

Definition is_close (c : syscall) : bool :=
  match c with Close _ => true | _ => false end.

(** The flags [get_oflag(bool)] computes, as a value. *)
Definition oflag_of `{Fcntl} (append : bool) : Z :=
  if append then Z.lor O_WRONLY O_APPEND else Z.lor O_WRONLY O_CREAT.

(** The message of a failing call in function [fn]. *)
Definition syscall_error (name fn : string) (code : Z) : string :=
  "Error while calling " +:+ name +:+ " in " +:+ fn +:+ ": errno=" +:+ fmt_d code.

Section Shapes.
Context `{Fcntl}.

(** The four ways a run of [begin_redirect_stderr] can go from the state
    [w] of an operating system [h], with the answer of each call. *)
Inductive begin_run {W} (h : handler W) (filepath : string) (append : bool)
    (w : W) : run Z W → Prop :=
  | begin_dup_failed r1 w1 e w' :
      h (Dup STDERR_FILENO) w = (r1, w1) → r1 < 0 →
      h Errno w1 = (e, w') →
      begin_run h filepath append w
        (Run [Ev (Dup STDERR_FILENO) r1; Ev Errno e]
             (Raised (syscall_error "dup" "begin_redirect_stderr" e)) w')
  | begin_open_failed r1 w1 r2 w2 e w' :
      h (Dup STDERR_FILENO) w = (r1, w1) → 0 ≤ r1 →
      h (Open filepath (oflag_of append) open_mode) w1 = (r2, w2) → r2 < 0 →
      h Errno w2 = (e, w') →
      begin_run h filepath append w
        (Run [Ev (Dup STDERR_FILENO) r1;
              Ev (Open filepath (oflag_of append) open_mode) r2; Ev Errno e]
             (Raised (syscall_error "open" "begin_redirect_stderr" e)) w')
  | begin_dup2_failed r1 w1 r2 w2 r3 w3 e w' :
      h (Dup STDERR_FILENO) w = (r1, w1) → 0 ≤ r1 →
      h (Open filepath (oflag_of append) open_mode) w1 = (r2, w2) → 0 ≤ r2 →
      h (Dup2 r2 STDERR_FILENO) w2 = (r3, w3) → r3 < 0 →
      h Errno w3 = (e, w') →
      begin_run h filepath append w
        (Run [Ev (Dup STDERR_FILENO) r1;
              Ev (Open filepath (oflag_of append) open_mode) r2;
              Ev (Dup2 r2 STDERR_FILENO) r3; Ev Errno e]
             (Raised (syscall_error "dup2" "begin_redirect_stderr" e)) w')
  | begin_done r1 w1 r2 w2 r3 w3 r4 w' :
      h (Dup STDERR_FILENO) w = (r1, w1) → 0 ≤ r1 →
      h (Open filepath (oflag_of append) open_mode) w1 = (r2, w2) → 0 ≤ r2 →
      h (Dup2 r2 STDERR_FILENO) w2 = (r3, w3) → 0 ≤ r3 →
      h (Close r2) w3 = (r4, w') →
      begin_run h filepath append w
        (Run [Ev (Dup STDERR_FILENO) r1;
              Ev (Open filepath (oflag_of append) open_mode) r2;
              Ev (Dup2 r2 STDERR_FILENO) r3; Ev (Close r2) r4]
             (Returned r1) w').

(** The two ways a run of [end_redirect_stderr] can go. *)
Inductive end_run {W} (h : handler W) (old_stderr : Z) (w : W) :
    run Z W → Prop :=
  | end_dup2_failed r w1 e w' :
      h (Dup2 old_stderr STDERR_FILENO) w = (r, w1) → r < 0 →
      h Errno w1 = (e, w') →
      end_run h old_stderr w
        (Run [Ev (Dup2 old_stderr STDERR_FILENO) r; Ev Errno e]
             (Raised (syscall_error "dup2" "end_redirect_stderr" e)) w')
  | end_done r w1 c w' :
      h (Dup2 old_stderr STDERR_FILENO) w = (r, w1) → 0 ≤ r →
      h (Close old_stderr) w1 = (c, w') →
      end_run h old_stderr w
        (Run [Ev (Dup2 old_stderr STDERR_FILENO) r; Ev (Close old_stderr) c]
             (Returned r) w').

(** The runs of [begin_redirect_stderr] on the POSIX model, by the state
    [s] they start from: the [dup] fails; the [open] fails and the
    duplicate [tok] stays open; the [dup2] fails and both [tok] and [fd]
    stay open; or the call goes through and only [tok] is left besides the
    redirected slot. *)
Inductive begin_posix (filepath : string) (append : bool) (s : os) :
    run Z os → Prop :=
  | begin_posix_dup_failed code :
      code = match fdt s !! STDERR_FILENO with
             | None => EBADF
             | Some _ => EMFILE
             end →
      fdt s !! STDERR_FILENO = None ∨
        lowest_free (fdt s) (nofile s) = None →
      begin_posix filepath append s
        (Run [Ev (Dup STDERR_FILENO) (-1); Ev Errno code]
             (Raised (syscall_error "dup" "begin_redirect_stderr" code))
             (Os (fdt s) (files s) (nofile s) code))
  | begin_posix_open_failed d0 tok code :
      fdt s !! STDERR_FILENO = Some d0 →
      lowest_free (fdt s) (nofile s) = Some tok →
      code = EMFILE ∨ code = ENOENT ∨ code = EACCES →
      begin_posix filepath append s
        (Run [Ev (Dup STDERR_FILENO) tok;
              Ev (Open filepath (oflag_of append) open_mode) (-1);
              Ev Errno code]
             (Raised (syscall_error "open" "begin_redirect_stderr" code))
             (Os (<[tok:=d0]> (fdt s)) (files s) (nofile s) code))
  | begin_posix_dup2_failed d0 tok fd :
      fdt s !! STDERR_FILENO = Some d0 →
      lowest_free (fdt s) (nofile s) = Some tok →
      lowest_free (<[tok:=d0]> (fdt s)) (nofile s) = Some fd →
      (∃ c, files s !! filepath = Some (Regular c)) ∨
        (append = false ∧ files s !! filepath = Some Vacant) →
      Z.of_nat (nofile s) ≤ STDERR_FILENO →
      begin_posix filepath append s
        (Run [Ev (Dup STDERR_FILENO) tok;
              Ev (Open filepath (oflag_of append) open_mode) fd;
              Ev (Dup2 fd STDERR_FILENO) (-1); Ev Errno EBADF]
             (Raised (syscall_error "dup2" "begin_redirect_stderr" EBADF))
             (Os (<[fd:=Ofd filepath (oflag_of append)]>
                    (<[tok:=d0]> (fdt s)))
                 (files_after_open filepath (files s)) (nofile s) EBADF))
  | begin_posix_done d0 tok fd :
      fdt s !! STDERR_FILENO = Some d0 →
      lowest_free (fdt s) (nofile s) = Some tok →
      lowest_free (<[tok:=d0]> (fdt s)) (nofile s) = Some fd →
      (∃ c, files s !! filepath = Some (Regular c)) ∨
        (append = false ∧ files s !! filepath = Some Vacant) →
      STDERR_FILENO < Z.of_nat (nofile s) →
      begin_posix filepath append s
        (Run [Ev (Dup STDERR_FILENO) tok;
              Ev (Open filepath (oflag_of append) open_mode) fd;
              Ev (Dup2 fd STDERR_FILENO) STDERR_FILENO; Ev (Close fd) 0]
             (Returned tok)
             (Os (<[STDERR_FILENO:=Ofd filepath (oflag_of append)]>
                    (<[tok:=d0]> (fdt s)))
                 (files_after_open filepath (files s)) (nofile s)
                 (last_errno s))).

(** The runs of [end_redirect_stderr] on the POSIX model. *)
Inductive end_posix (old_stderr : Z) (s : os) : run Z os → Prop :=
  | end_posix_failed :
      fdt s !! old_stderr = None ∨ Z.of_nat (nofile s) ≤ STDERR_FILENO →
      end_posix old_stderr s
        (Run [Ev (Dup2 old_stderr STDERR_FILENO) (-1); Ev Errno EBADF]
             (Raised (syscall_error "dup2" "end_redirect_stderr" EBADF))
             (Os (fdt s) (files s) (nofile s) EBADF))
  | end_posix_done d :
      fdt s !! old_stderr = Some d →
      STDERR_FILENO < Z.of_nat (nofile s) →
      end_posix old_stderr s
        (Run [Ev (Dup2 old_stderr STDERR_FILENO) STDERR_FILENO;
              Ev (Close old_stderr) 0]
             (Returned STDERR_FILENO)
             (set_fdt (delete old_stderr (<[STDERR_FILENO:=d]> (fdt s))) s)).

Lemma get_oflag_bool_ret append : get_oflag_bool append = Ret (oflag_of append).
Proof. destruct append; reflexivity. Qed.

Lemma exec_begin_run {W} (h : handler W) (w : W) filepath append :
  begin_run h filepath append w
    (exec h (begin_redirect_stderr filepath append) w).
Proof.
  unfold begin_redirect_stderr. rewrite get_oflag_bool_ret. cbn.
  destruct (h (Dup STDERR_FILENO) w) as [r1 w1] eqn:Hdup. cbn.
  destruct (Z.ltb_spec r1 0); cbn.
  { destruct (h Errno w1) as [e w2] eqn:Herr. cbn. by econstructor. }
  destruct (h (Open filepath (oflag_of append) open_mode) w1)
    as [r2 w2] eqn:Hopen. cbn.
  destruct (Z.ltb_spec r2 0); cbn.
  { destruct (h Errno w2) as [e w3] eqn:Herr. cbn.
    by eapply begin_open_failed. }
  destruct (h (Dup2 r2 STDERR_FILENO) w2) as [r3 w3] eqn:Hsub. cbn.
  destruct (Z.ltb_spec r3 0); cbn.
  { destruct (h Errno w3) as [e w4] eqn:Herr. cbn.
    by eapply begin_dup2_failed. }
  destruct (h (Close r2) w3) as [r4 w4] eqn:Hclose. cbn.
  by eapply begin_done.
Qed.

Lemma exec_end_run {W} (h : handler W) (w : W) old_stderr :
  end_run h old_stderr w (exec h (end_redirect_stderr old_stderr) w).
Proof.
  unfold end_redirect_stderr. cbn.
  destruct (h (Dup2 old_stderr STDERR_FILENO) w) as [r1 w1] eqn:Hdup. cbn.
  destruct (Z.ltb_spec r1 0); cbn.
  { destruct (h Errno w1) as [e w2] eqn:Herr. cbn. by econstructor. }
  destruct (h (Close old_stderr) w1) as [r2 w2] eqn:Hopen. cbn.
  by eapply end_done.
Qed.

End Shapes.

(** ** Mode resolution *)

Section Modes.
Context `{Fcntl}.

Lemma has_flag_true fl f : has_flag fl f = true ↔ Z.land fl f = f.
Proof. unfold has_flag. apply Z.eqb_eq. Qed.

Lemma land_wronly_status f : Z.land f O_ACCMODE = 0 → Z.land O_WRONLY f = 0.
Proof.
  intros Hf. rewrite <- wronly_accmode, <- Z.land_assoc.
  rewrite (Z.land_comm O_ACCMODE f), Hf. apply Z.land_0_r.
Qed.

Lemma access_mode_lor_status f :
  Z.land f O_ACCMODE = 0 → access_mode (Z.lor O_WRONLY f) = O_WRONLY.
Proof.
  intros Hf. unfold access_mode.
  rewrite Z.land_lor_distr_l, wronly_accmode, Hf. apply Z.lor_0_r.
Qed.

Lemma has_flag_lor_r fl f : has_flag (Z.lor fl f) f = true.
Proof.
  apply has_flag_true. apply Z.bits_inj'. intros n _.
  rewrite Z.land_spec, Z.lor_spec.
  destruct (Z.testbit fl n), (Z.testbit f n); reflexivity.
Qed.

Lemma has_flag_disjoint a b f :
  0 < f → Z.land a f = 0 → Z.land b f = 0 → has_flag (Z.lor a b) f = false.
Proof.
  intros Hpos Ha Hb. unfold has_flag.
  rewrite Z.land_lor_distr_l, Ha, Hb, Z.lor_0_l. apply Z.eqb_neq. lia.
Qed.

(** The flags of the mode ["w"]: write-only and create, nothing else. *)
Lemma oflag_write_flags :
  access_mode (oflag_of false) = O_WRONLY ∧
  has_flag (oflag_of false) O_CREAT = true ∧
  has_flag (oflag_of false) O_APPEND = false ∧
  has_flag (oflag_of false) O_TRUNC = false.
Proof.
  cbn [oflag_of]. split; [apply access_mode_lor_status, creat_accmode|].
  split; [apply has_flag_lor_r|].
  split; apply has_flag_disjoint;
    auto using append_pos, trunc_pos, land_wronly_status, append_accmode,
      trunc_accmode, creat_append, creat_trunc.
Qed.

(** The flags of the mode ["a"]: write-only and append, nothing else. *)
Lemma oflag_append_flags :
  access_mode (oflag_of true) = O_WRONLY ∧
  has_flag (oflag_of true) O_APPEND = true ∧
  has_flag (oflag_of true) O_CREAT = false ∧
  has_flag (oflag_of true) O_TRUNC = false.
Proof.
  cbn [oflag_of]. split; [apply access_mode_lor_status, append_accmode|].
  split; [apply has_flag_lor_r|].
  split; apply has_flag_disjoint;
    auto using creat_pos, trunc_pos, land_wronly_status, creat_accmode,
      trunc_accmode, append_trunc.
  rewrite Z.land_comm. apply creat_append.
Qed.

(** C8. [get_oflag(String)] returns a flag exactly for the mode strings
    ["w"] and ["a"]: write-only with create for the first, write-only with
    append for the second.  For every other string it raises, with the
    message "Unrecognized mode: " followed by the string, and returns
    nothing. *)
Theorem get_oflag_recognized_modes (mode : string) :
  (mode = "w" ∧ get_oflag mode = Ret (Z.lor O_WRONLY O_CREAT)) ∨
  (mode = "a" ∧ get_oflag mode = Ret (Z.lor O_WRONLY O_APPEND)) ∨
  (mode ≠ "w" ∧ mode ≠ "a" ∧
   get_oflag mode = Stop ("Unrecognized mode: " +:+ mode)).
Proof.
  unfold get_oflag.
  destruct (String.eqb_spec mode "w") as [->|Hw]; [by left|].
  destruct (String.eqb_spec mode "a") as [->|Ha]; [by right; left|].
  by right; right.
Qed.

(** C10. [get_oflag(bool)] passes one of the two recognized mode strings
    to [get_oflag(String)] and returns its flag; it never raises.  Hence no
    run of [begin_redirect_stderr], whatever the system calls answer, ends
    with the unrecognized-mode error. *)
Theorem get_oflag_bool_never_raises (append : bool) :
  (mode_of_append append = "a" ∨ mode_of_append append = "w") ∧
  get_oflag (mode_of_append append) = Ret (oflag_of append) ∧
  get_oflag_bool append = Ret (oflag_of append) ∧
  ∀ W (h : handler W) (w : W) (filepath mode : string),
    result (exec h (begin_redirect_stderr filepath append) w)
      ≠ Raised ("Unrecognized mode: " +:+ mode).
Proof.
  split; [destruct append; auto|].
  split; [by destruct append|].
  split; [apply get_oflag_bool_ret|].
  intros W h w filepath mode Hr.
  destruct (exec_begin_run h w filepath append); discriminate Hr.
Qed.

End Modes.

(** ** Error reporting, against any operating system *)

Section Errors.
Context `{Fcntl}.

(** Splits a membership in an explicit list of events into its cases. *)
Ltac in_cases H :=
  repeat (destruct H as [H|H]; [try discriminate H|]);
  try contradiction H.

Lemma failed_true c r : failed (Ev c r) = true ↔ fallible c = true ∧ r < 0.
Proof. unfold failed. cbn. rewrite andb_true_iff, Z.ltb_lt. tauto. Qed.

(** C3. In every run of [begin_redirect_stderr], whatever the operating
    system answers: an error is raised exactly when one of the calls
    [dup], [open], [dup2] returned a negative value; the message then names
    that call and ends with the value of [errno] read right after it, in
    decimal; and a run that raises no error returns the value the initial
    [dup] returned. *)
Theorem begin_raises_iff_syscall_fails {W} (h : handler W) (w : W)
    (filepath : string) (append : bool) :
  let r := exec h (begin_redirect_stderr filepath append) w in
  ((∃ msg, result r = Raised msg) ↔ (∃ e, In e (trace r) ∧ failed e = true)) ∧
  (∀ msg, result r = Raised msg →
     ∃ e code, In e (trace r) ∧ failed e = true ∧
       last (trace r) = Some (Ev Errno code) ∧
       msg = "Error while calling " +:+ syscall_name (ev_call e) +:+
             " in begin_redirect_stderr: errno=" +:+ fmt_d code) ∧
  (∀ tok, result r = Returned tok →
     head (trace r) = Some (Ev (Dup STDERR_FILENO) tok)).
Proof.
  cbv zeta. destruct (exec_begin_run h w filepath append); cbn [trace result].
  - split; [split|split].
    + intros _. eexists. split; [by left|]. by apply failed_true.
    + eauto.
    + intros msg [= <-]. do 2 eexists. split; [by left|].
      split; [by apply failed_true|]. done.
    + intros tok [=].
  - split; [split|split].
    + intros _. eexists. split; [right; by left|]. by apply failed_true.
    + eauto.
    + intros msg [= <-]. do 2 eexists. split; [right; by left|].
      split; [by apply failed_true|]. done.
    + intros tok [=].
  - split; [split|split].
    + intros _. eexists. split; [do 2 right; by left|]. by apply failed_true.
    + eauto.
    + intros msg [= <-]. do 2 eexists. split; [do 2 right; by left|].
      split; [by apply failed_true|]. done.
    + intros tok [=].
  - split; [split|split].
    + intros [msg [=]].
    + intros [e [Hin Hf]]. cbn in Hin. in_cases Hin; subst e;
        apply failed_true in Hf as [Hc Hneg]; cbn in Hc; (lia || discriminate).
    + intros msg [=].
    + by intros tok [= <-].
Qed.

(** Nothing but a failed [dup] comes before the error of [dup], and so on:
    a run in which [open] returned a negative value raises the error of
    [open] and makes no [dup2] call. *)
Lemma begin_open_negative {W} (h : handler W) (w : W) filepath append
    oflag mode ret :
  let r := exec h (begin_redirect_stderr filepath append) w in
  In (Ev (Open filepath oflag mode) ret) (trace r) → ret < 0 →
  (∃ code, last (trace r) = Some (Ev Errno code) ∧
     result r = Raised (syscall_error "open" "begin_redirect_stderr" code)) ∧
  ∀ e, In e (trace r) → is_dup2 (ev_call e) = false.
Proof.
  cbv zeta. destruct (exec_begin_run h w filepath append);
    cbn [trace result]; intros Hin Hneg; cbn in Hin; in_cases Hin.
  - injection Hin as _ _ <-.
    split; [by eexists|]. intros e' He'. cbn in He'. in_cases He'; by subst e'.
  - injection Hin as _ _ <-. lia.
  - injection Hin as _ _ <-. lia.
Qed.

(** C9. Every run of [begin_redirect_stderr], whatever the operating
    system answers, starts with the [dup] of the standard-error descriptor,
    and as soon as that call has succeeded the next call is the [open] of
    [filepath] with the resolved flags and the permission bits 0644: read
    and write for the owner, read for the group, read for the others (the
    bits 8 down to 0 read rw-r--r--).  When the [dup] fails the file is not
    opened at all.  No [open] call is made on another path or with another
    mode. *)
Theorem begin_opens_with_mode_0644 {W} (h : handler W) (w : W)
    (filepath : string) (append : bool) :
  let r := exec h (begin_redirect_stderr filepath append) w in
  let tok := (h (Dup STDERR_FILENO) w).1 in
  let w1 := (h (Dup STDERR_FILENO) w).2 in
  let fd := (h (Open filepath (oflag_of append) open_mode) w1).1 in
  open_mode = 6 * 8 ^ 2 + 4 * 8 + 4 ∧
  map (Z.testbit open_mode) [8; 7; 6; 5; 4; 3; 2; 1; 0]
    = [true; true; false; true; false; false; true; false; false] ∧
  (∀ path oflag mode ret,
     In (Ev (Open path oflag mode) ret) (trace r) →
     path = filepath ∧ oflag = oflag_of append ∧ mode = open_mode) ∧
  (∀ tok, In (Ev (Dup STDERR_FILENO) tok) (trace r) → 0 ≤ tok →
     ∃ ret, In (Ev (Open filepath (oflag_of append) open_mode) ret) (trace r)) ∧
  ((tok < 0 ∧
    ∃ code, trace r = [Ev (Dup STDERR_FILENO) tok; Ev Errno code]) ∨
   (0 ≤ tok ∧
    ∃ rest, trace r =
      Ev (Dup STDERR_FILENO) tok ::
      Ev (Open filepath (oflag_of append) open_mode) fd :: rest)).
Proof.
  cbv zeta. do 2 (split; [reflexivity|]).
  destruct (exec_begin_run h w filepath append)
    as [r1 w1 e w' Hd Hr1 He
       |r1 w1 r2 w2 e w' Hd Hr1 Ho Hr2 He
       |r1 w1 r2 w2 r3 w3 e w' Hd Hr1 Ho Hr2 Hs Hr3 He
       |r1 w1 r2 w2 r3 w3 r4 w' Hd Hr1 Ho Hr2 Hs Hr3 Hc];
    cbn [trace]; rewrite Hd; cbn [fst snd]; try rewrite Ho; cbn [fst snd];
    (split; [|split]).
  all: try (intros path oflag mode ret Hin; cbn in Hin; in_cases Hin;
            by injection Hin as <- <- <- _).
  all: try (intros tok Hin Hpos; cbn in Hin; in_cases Hin;
            first [injection Hin as <-; lia | eexists; right; by left]).
  - left. eauto.
  - right. eauto.
  - right. eauto.
  - right. eauto.
Qed.

End Errors.

(** ** The calls of the POSIX model *)

Section PosixCalls.
Context `{Fcntl}.

Lemma lowest_free_Some t limit n :
  lowest_free t limit = Some n → 0 ≤ n < Z.of_nat limit ∧ t !! n = None.
Proof.
  unfold lowest_free. intros Hf. apply find_some in Hf as [Hin Hfree].
  apply list_elem_of_In, elem_of_seqZ in Hin.
  apply bool_decide_eq_true in Hfree. split; [lia|done].
Qed.

Lemma fail_failure e s : e ≠ 0 → failure s (fail e s).1 (fail e s).2.
Proof. by intros He. Qed.

Lemma posix_dup_inv fd s r s' :
  posix_dup fd s = (r, s') →
  failure s r s' ∨
  ∃ d, fdt s !! fd = Some d ∧ 0 ≤ r ∧ fdt s !! r = None ∧
       s' = set_fdt (<[r:=d]> (fdt s)) s.
Proof.
  unfold posix_dup. destruct (fdt s !! fd) as [d|] eqn:Hfd.
  - destruct (lowest_free _ _) as [n|] eqn:Hn; intros [= <- <-].
    + apply lowest_free_Some in Hn as [Hn Hfree]. right. exists d.
      repeat split; (done || lia).
    + left. by apply (fail_failure EMFILE).
  - intros [= <- <-]. left. by apply (fail_failure EBADF).
Qed.

Lemma posix_open_inv path oflag mode s r s' :
  posix_open path oflag mode s = (r, s') →
  failure s r s' ∨
  (0 ≤ r ∧ fdt s !! r = None ∧
   fdt s' = <[r:=Ofd path oflag]> (fdt s) ∧ nofile s' = nofile s ∧
   ((files s !! path = Some Vacant ∧ has_flag oflag O_CREAT = true ∧
     files s' = <[path:=Regular []]> (files s)) ∨
    (∃ c, files s !! path = Some (Regular c) ∧
       files s' = if has_flag oflag O_TRUNC
                  then <[path:=Regular []]> (files s) else files s))).
Proof.
  unfold posix_open. destruct (lowest_free _ _) as [n|] eqn:Hn.
  - apply lowest_free_Some in Hn as [Hn Hfree].
    destruct (files s !! path) as [[|c|]|] eqn:Hp.
    + destruct (has_flag oflag O_CREAT) eqn:Hc; intros [= <- <-].
      * right. repeat split; try (done || lia). left. done.
      * left. by apply (fail_failure ENOENT).
    + destruct (has_flag oflag O_TRUNC) eqn:Ht; intros [= <- <-].
      * right. repeat split; try (done || lia). right. by exists c.
      * right. repeat split; try (done || lia). right. by exists c.
    + intros [= <- <-]. left. by apply (fail_failure EACCES).
    + intros [= <- <-]. left. by apply (fail_failure ENOENT).
  - intros [= <- <-]. left. by apply (fail_failure EMFILE).
Qed.

(** Without the create flag, [open] fails where there is no file. *)
Lemma posix_open_no_file path oflag mode s :
  has_flag oflag O_CREAT = false →
  files s !! path = Some Vacant ∨ files s !! path = None →
  (posix_open path oflag mode s).1 = -1 ∧
  files (posix_open path oflag mode s).2 = files s.
Proof.
  intros Hc Hp. unfold posix_open.
  destruct (lowest_free _ _); [|done].
  destruct Hp as [-> | ->]; [by rewrite Hc|done].
Qed.

Lemma posix_dup2_inv fd fd2 s r s' :
  posix_dup2 fd fd2 s = (r, s') →
  failure s r s' ∨
  ∃ d, fdt s !! fd = Some d ∧ r = fd2 ∧ 0 ≤ fd2 < Z.of_nat (nofile s) ∧
       s' = set_fdt (<[fd2:=d]> (fdt s)) s.
Proof.
  unfold posix_dup2. destruct (fdt s !! fd) as [d|] eqn:Hfd.
  - destruct (Z.leb_spec 0 fd2); cbn [andb].
    + destruct (Z.ltb_spec fd2 (Z.of_nat (nofile s))).
      * destruct (Z.eqb_spec fd fd2) as [->|Hne]; intros [= <- <-].
        -- right. exists d. repeat split; try (done || lia).
           unfold set_fdt. rewrite insert_id by done. by destruct s.
        -- right. exists d. repeat split; (done || lia).
      * intros [= <- <-]. left. by apply (fail_failure EBADF).
    + intros [= <- <-]. left. by apply (fail_failure EBADF).
  - intros [= <- <-]. left. by apply (fail_failure EBADF).
Qed.

Lemma posix_dup2_closed fd fd2 s :
  fdt s !! fd = None →
  posix_dup2 fd fd2 s = (-1, Os (fdt s) (files s) (nofile s) EBADF).
Proof. intros Hfd. unfold posix_dup2. by rewrite Hfd. Qed.

Lemma posix_dup2_open fd fd2 d s :
  fdt s !! fd = Some d → 0 ≤ fd2 < Z.of_nat (nofile s) →
  posix_dup2 fd fd2 s = (fd2, set_fdt (<[fd2:=d]> (fdt s)) s).
Proof.
  intros Hfd Hr. unfold posix_dup2. rewrite Hfd.
  destruct (Z.leb_spec 0 fd2); [|lia].
  destruct (Z.ltb_spec fd2 (Z.of_nat (nofile s))); [|lia]. cbn [andb].
  destruct (Z.eqb_spec fd fd2) as [->|Hne]; [|done].
  unfold set_fdt. rewrite insert_id by done. by destruct s.
Qed.

Lemma posix_close_open fd d s :
  fdt s !! fd = Some d →
  posix_close fd s = (0, set_fdt (delete fd (fdt s)) s).
Proof. intros Hfd. unfold posix_close. by rewrite Hfd. Qed.

Lemma posix_close_inv fd s r s' :
  posix_close fd s = (r, s') →
  fdt s' !! fd = None ∧ files s' = files s ∧ nofile s' = nofile s ∧
  ∀ fd', fd' ≠ fd → fdt s' !! fd' = fdt s !! fd'.
Proof.
  unfold posix_close. destruct (fdt s !! fd) as [d|] eqn:Hfd;
    intros [= <- <-]; cbn; [|done].
  split; [apply lookup_delete_eq|]. repeat split.
  intros fd' Hne. by apply lookup_delete_ne.
Qed.

End PosixCalls.

(** ** Runs on the POSIX model *)

Section PosixRuns.
Context `{Fcntl}.

Lemma posix_errno s e s' : posix Errno s = (e, s') → e = last_errno s ∧ s' = s.
Proof. by intros [= <- <-]. Qed.

Lemma files_posix_dup fd s : files (posix_dup fd s).2 = files s.
Proof.
  destruct (posix_dup fd s) as [r s'] eqn:Hd.
  by apply posix_dup_inv in Hd as [(_ & _ & _ & ? & _)|(d & _ & _ & _ & ->)].
Qed.

Lemma files_posix_dup2 fd fd2 s : files (posix_dup2 fd fd2 s).2 = files s.
Proof.
  destruct (posix_dup2 fd fd2 s) as [r s'] eqn:Hd.
  by apply posix_dup2_inv in Hd as [(_ & _ & _ & ? & _)|(d & _ & _ & _ & ->)].
Qed.

Lemma files_posix_close fd s : files (posix_close fd s).2 = files s.
Proof.
  destruct (posix_close fd s) as [r s'] eqn:Hd.
  by apply posix_close_inv in Hd as (_ & ? & _).
Qed.

(** Only the [open] call of [begin_redirect_stderr] can change the files:
    either they are as before, or they are as that call left them, made in
    a state with the files as before. *)
Lemma begin_files s filepath append :
  let r := exec posix (begin_redirect_stderr filepath append) s in
  files (final r) = files s ∨
  ∃ s1, files s1 = files s ∧
    files (final r) = files (posix_open filepath (oflag_of append) open_mode s1).2.
Proof.
  cbv zeta.
  destruct (exec_begin_run posix s filepath append)
    as [r1 s1 e s' Hd _ He
       |r1 s1 r2 s2 e s' Hd _ Ho _ He
       |r1 s1 r2 s2 r3 s3 e s' Hd _ Ho _ Hs _ He
       |r1 s1 r2 s2 r3 s3 r4 s' Hd _ Ho _ Hs _ Hc]; cbn [final];
    cbn [posix] in *.
  - apply posix_errno in He as [_ ->]. left.
    by rewrite <- (files_posix_dup STDERR_FILENO s), Hd.
  - apply posix_errno in He as [_ ->]. right. exists s1. split.
    + by rewrite <- (files_posix_dup STDERR_FILENO s), Hd.
    + by rewrite Ho.
  - apply posix_errno in He as [_ ->]. right. exists s1. split.
    + by rewrite <- (files_posix_dup STDERR_FILENO s), Hd.
    + rewrite Ho. cbn. by rewrite <- (files_posix_dup2 r2 STDERR_FILENO s2), Hs.
  - right. exists s1. split.
    + by rewrite <- (files_posix_dup STDERR_FILENO s), Hd.
    + rewrite Ho. cbn.
      rewrite <- (files_posix_dup2 r2 STDERR_FILENO s2), Hs. cbn.
      by rewrite <- (files_posix_close r2 s3), Hc.
Qed.

(** With [append = false] the flags are write-only and create, without the
    truncation flag: a file that exists at [filepath] keeps its content
    through the whole call, whichever way the call ends. *)
Lemma begin_write_mode_keeps_content (s : os) (filepath : string)
    (content : list Byte.byte) :
  files s !! filepath = Some (Regular content) →
  let r := exec posix (begin_redirect_stderr filepath false) s in
  get_oflag_bool false = Ret (Z.lor O_WRONLY O_CREAT) ∧
  has_flag (Z.lor O_WRONLY O_CREAT) O_TRUNC = false ∧
  files (final r) !! filepath = Some (Regular content).
Proof.
  intros Hfile. cbv zeta. split; [reflexivity|].
  destruct oflag_write_flags as (_ & _ & _ & Htrunc). split; [exact Htrunc|].
  destruct (begin_files s filepath false) as [->|(s1 & Hs1 & ->)]; [done|].
  destruct (posix_open _ _ _ s1) as [r2 s2] eqn:Ho. cbn [snd].
  apply posix_open_inv in Ho as [(_ & _ & _ & -> & _)|(_ & _ & _ & _ & Hf)].
  - by rewrite Hs1.
  - rewrite Hs1 in Hf. destruct Hf as [(Hv & _)|(c & _ & Hf)]; [congruence|].
    by rewrite Hf, Htrunc.
Qed.

(** C2, as the code has it.  With [append = true] the flags are write-only
    and append, without the create flag.  Where no file exists at
    [filepath] the call therefore never returns a token and creates no
    file; once the initial [dup] has succeeded, the error it raises is the
    one of [open]. *)
Theorem begin_append_mode_needs_file (s : os) (filepath : string) :
  files s !! filepath = Some Vacant ∨ files s !! filepath = None →
  let r := exec posix (begin_redirect_stderr filepath true) s in
  get_oflag_bool true = Ret (Z.lor O_WRONLY O_APPEND) ∧
  access_mode (Z.lor O_WRONLY O_APPEND) = O_WRONLY ∧
  has_flag (Z.lor O_WRONLY O_APPEND) O_APPEND = true ∧
  has_flag (Z.lor O_WRONLY O_APPEND) O_CREAT = false ∧
  (∀ tok, result r ≠ Returned tok) ∧
  files (final r) = files s ∧
  (∀ tok, In (Ev (Dup STDERR_FILENO) tok) (trace r) → 0 ≤ tok →
     ∃ code, code ≠ 0 ∧
       result r = Raised (syscall_error "open" "begin_redirect_stderr" code)).
Proof.
  intros Hnone. cbv zeta. split; [reflexivity|].
  destruct oflag_append_flags as (Hacc & Happ & Hcreat & _).
  do 3 (split; [done|]).
  assert (Hopen : ∀ s1, files s1 = files s →
            (posix_open filepath (oflag_of true) open_mode s1).1 = -1 ∧
            files (posix_open filepath (oflag_of true) open_mode s1).2
              = files s).
  { intros s1 Hs1. rewrite <- Hs1.
    apply posix_open_no_file; [done|by rewrite Hs1]. }
  split; [|split].
  - intros tok Hr.
    destruct (exec_begin_run posix s filepath true)
      as [| | |r1 s1 r2 s2 r3 s3 r4 s' Hd _ Ho Hr2 _ _ _]; try discriminate Hr.
    cbn [posix] in *.
    destruct (Hopen s1) as [Hfail _].
    { by rewrite <- (files_posix_dup STDERR_FILENO s), Hd. }
    rewrite Ho in Hfail. cbn in Hfail. lia.
  - destruct (begin_files s filepath true) as [->|(s1 & Hs1 & ->)]; [done|].
    by apply Hopen.
  - intros tok Hin Htok.
    destruct (exec_begin_run posix s filepath true)
      as [r1 s1 e s' Hd Hr1 He
         |r1 s1 r2 s2 e s' Hd _ Ho Hneg He
         |r1 s1 r2 s2 r3 s3 e s' Hd _ Ho Hr2 _ _ _
         |r1 s1 r2 s2 r3 s3 r4 s' Hd _ Ho Hr2 _ _ _];
      cbn [trace result] in *; cbn [posix] in *.
    + cbn in Hin. destruct Hin as [[= <-]|[[=]|[]]]. exfalso. lia.
    + apply posix_errno in He as [-> ->].
      apply posix_open_inv in Ho as [(_ & Herr & _)|(Hr2 & _)];
        [|exfalso; lia].
      by exists (last_errno s2).
    + destruct (Hopen s1) as [Hfail _].
      { by rewrite <- (files_posix_dup STDERR_FILENO s), Hd. }
      rewrite Ho in Hfail. cbn in Hfail. exfalso. lia.
    + destruct (Hopen s1) as [Hfail _].
      { by rewrite <- (files_posix_dup STDERR_FILENO s), Hd. }
      rewrite Ho in Hfail. cbn in Hfail. exfalso. lia.
Qed.

(** C6. A token that is not an open descriptor makes
    [end_redirect_stderr] raise the error of [dup2] with the code [EBADF]
    that the failed call left in [errno].  The run makes no [close] call,
    and the descriptor table, the standard-error slot included, is as
    before. *)
Theorem end_invalid_token_raises (s : os) (tok : Z) :
  fdt s !! tok = None →
  let r := exec posix (end_redirect_stderr tok) s in
  result r =
    Raised ("Error while calling dup2 in end_redirect_stderr: errno="
            +:+ fmt_d EBADF) ∧
  trace r = [Ev (Dup2 tok STDERR_FILENO) (-1); Ev Errno EBADF] ∧
  (∀ e, In e (trace r) → is_close (ev_call e) = false) ∧
  fdt (final r) = fdt s ∧
  stderr_slot (final r) = stderr_slot s.
Proof.
  intros Htok. cbv zeta. unfold end_redirect_stderr. cbn.
  rewrite (posix_dup2_closed tok STDERR_FILENO s Htok). cbn.
  repeat split. intros e [<-|[<-|[]]]; reflexivity.
Qed.

(** C5. A run of [end_redirect_stderr] that raises no error consists of
    the [dup2] call, which returned 2, followed by the [close] of the
    token, which succeeded; the function returns the value of [dup2], and
    the token is no longer an open descriptor. *)
Theorem end_returns_dup2_status (s : os) (tok v : Z) :
  result (exec posix (end_redirect_stderr tok) s) = Returned v →
  v = STDERR_FILENO ∧
  trace (exec posix (end_redirect_stderr tok) s) =
    [Ev (Dup2 tok STDERR_FILENO) v; Ev (Close tok) 0] ∧
  fdt (final (exec posix (end_redirect_stderr tok) s)) !! tok = None.
Proof.
  destruct (exec_end_run posix s tok)
    as [r s1 e s' Hd Hr He|r s1 c s' Hd Hr Hc]; cbn [trace result final];
    intros [= <-]. cbn [posix] in *.
  apply posix_dup2_inv in Hd as [(-> & _)|(d & Hfd & -> & Hrange & ->)];
    [exfalso; lia|].
  assert (Hopen :
    is_Some (fdt (set_fdt (<[STDERR_FILENO:=d]> (fdt s)) s) !! tok)).
  { cbn. destruct (decide (tok = STDERR_FILENO)) as [->|Hne].
    - rewrite lookup_insert_eq. eauto.
    - rewrite lookup_insert_ne by done. eauto. }
  destruct Hopen as [d' Hd'].
  rewrite (posix_close_open _ _ _ Hd') in Hc. injection Hc as <- <-.
  repeat split. cbn. apply lookup_delete_eq.
Qed.

(** The [close] of [end_redirect_stderr] is made only in a run whose
    [dup2] returned a non-negative value, whatever the operating system. *)
Lemma end_close_only_after_dup2 {W} (h : handler W) (w : W) tok e :
  In e (trace (exec h (end_redirect_stderr tok) w)) →
  is_close (ev_call e) = true →
  ∃ ret, 0 ≤ ret ∧
    trace (exec h (end_redirect_stderr tok) w)
      = [Ev (Dup2 tok STDERR_FILENO) ret; e] ∧
    result (exec h (end_redirect_stderr tok) w) = Returned ret.
Proof.
  destruct (exec_end_run h w tok); cbn [trace result]; intros Hin Hc.
  - destruct Hin as [<-|[<-|[]]]; discriminate Hc.
  - destruct Hin as [<-|[<-|[]]]; [discriminate Hc|]. eauto.
Qed.

(** A call of [end_redirect_stderr] on an open token, computed. *)
Lemma exec_end_open s tok d :
  fdt s !! tok = Some d → 0 ≤ STDERR_FILENO < Z.of_nat (nofile s) →
  exec posix (end_redirect_stderr tok) s =
  Run [Ev (Dup2 tok STDERR_FILENO) STDERR_FILENO; Ev (Close tok) 0]
      (Returned STDERR_FILENO)
      (set_fdt (delete tok (<[STDERR_FILENO:=d]> (fdt s))) s).
Proof.
  intros Htok Hrange.
  assert (Hopen : fdt (set_fdt (<[STDERR_FILENO:=d]> (fdt s)) s) !! tok
                  = Some d).
  { cbn -[STDERR_FILENO]. destruct (decide (tok = STDERR_FILENO)) as [->|Hne].
    - apply lookup_insert_eq.
    - by rewrite lookup_insert_ne. }
  destruct (exec_end_run posix s tok)
    as [r s1 e s' Hd Hr He|r s1 c s' Hd Hr Hc]; cbn [posix] in *;
    rewrite (posix_dup2_open _ _ _ _ Htok Hrange) in Hd;
    injection Hd as <- <-.
  - exfalso. unfold STDERR_FILENO in Hr. lia.
  - rewrite (posix_close_open _ _ _ Hopen) in Hc. by injection Hc as <- <-.
Qed.

(** C7. When the [open] call of [begin_redirect_stderr] returns a negative
    value, the error of [open] is raised with the non-zero code the call
    left in [errno]; no [dup2] call is made, and the standard-error slot
    refers to what it referred to before. *)
Theorem begin_open_failure_no_redirect (s : os) (filepath : string)
    (append : bool) (oflag mode ret : Z) :
  let r := exec posix (begin_redirect_stderr filepath append) s in
  In (Ev (Open filepath oflag mode) ret) (trace r) → ret < 0 →
  ∃ code, code ≠ 0 ∧
    result r =
      Raised ("Error while calling open in begin_redirect_stderr: errno="
              +:+ fmt_d code) ∧
    (∀ e, In e (trace r) → is_dup2 (ev_call e) = false) ∧
    stderr_slot (final r) = stderr_slot s.
Proof.
  cbv zeta. intros Hin Hneg.
  destruct (begin_open_negative posix s filepath append oflag mode ret Hin Hneg)
    as [_ Hnodup2].
  destruct (exec_begin_run posix s filepath append)
    as [r1 s1 e s' Hd Hr1 He
       |r1 s1 r2 s2 e s' Hd Hr1 Ho Hr2 He
       |r1 s1 r2 s2 r3 s3 e s' Hd _ Ho Hr2 _ _ _
       |r1 s1 r2 s2 r3 s3 r4 s' Hd _ Ho Hr2 _ _ _];
    cbn [trace result final] in *; cbn [posix] in *.
  - destruct Hin as [[=]|[[=]|[]]].
  - apply posix_errno in He as [-> ->]. exists (last_errno s2).
    apply posix_open_inv in Ho as [(_ & Herr & Hfdt & _)|(? & _)];
      [|exfalso; lia].
    apply posix_dup_inv in Hd as [(-> & _)|(d & Hfd & _ & Hfree & ->)];
      [exfalso; lia|].
    repeat split; [done..|]. unfold stderr_slot. rewrite Hfdt. cbn.
    apply lookup_insert_ne. intros ->. unfold STDERR_FILENO in *. congruence.
  - destruct Hin as [[=]|[[= _ _ <-]|[[=]|[[=]|[]]]]]. exfalso. lia.
  - destruct Hin as [[=]|[[= _ _ <-]|[[=]|[[=]|[]]]]]. exfalso. lia.
Qed.

(** C4. When [begin_redirect_stderr] returns a token, the standard-error
    slot refers to the file just opened on [filepath]; the call of
    [end_redirect_stderr] on that token then succeeds, and afterwards the
    slot refers to the description it referred to before the redirection.
    The whole descriptor table is as before: nothing is left open on the
    redirect file. *)
Theorem redirect_round_trip (s : os) (filepath : string) (append : bool)
    (tok : Z) :
  result (exec posix (begin_redirect_stderr filepath append) s) = Returned tok →
  let s1 := final (exec posix (begin_redirect_stderr filepath append) s) in
  let r2 := exec posix (end_redirect_stderr tok) s1 in
  is_Some (stderr_slot s) ∧
  stderr_slot s1 = Some (Ofd filepath (oflag_of append)) ∧
  result r2 = Returned STDERR_FILENO ∧
  stderr_slot (final r2) = stderr_slot s ∧
  fdt (final r2) = fdt s.
Proof.
  destruct (exec_begin_run posix s filepath append)
    as [| | |r1 s1 r2 s2 r3 s3 r4 s' Hd Hr1 Ho Hr2 Hs Hr3 Hc];
    cbn [result final]; intros [= <-]; cbv zeta. cbn [posix] in *.
  apply posix_dup_inv in Hd as [(-> & _)|(d0 & Hfd & _ & Hfree & ->)];
    [exfalso; lia|].
  apply posix_open_inv in Ho
    as [(-> & _)|(_ & Hfree2 & Hfdt2 & Hlim2 & _)]; [exfalso; lia|].
  cbn in Hfree2, Hfdt2, Hlim2.
  apply lookup_insert_None in Hfree2 as [Hfree2 Hne12].
  apply posix_dup2_inv in Hs as [(-> & _)|(d & Hfd2 & -> & Hrange & ->)];
    [exfalso; lia|].
  rewrite Hfdt2, lookup_insert_eq in Hfd2. injection Hfd2 as <-.
  assert (Hne1 : r1 ≠ STDERR_FILENO) by (intros ->; congruence).
  assert (Hne2 : r2 ≠ STDERR_FILENO) by (intros ->; congruence).
  rewrite (posix_close_open r2 (Ofd filepath (oflag_of append))) in Hc.
  2: { cbn. rewrite lookup_insert_ne by done. rewrite Hfdt2.
       apply lookup_insert_eq. }
  injection Hc as _ <-. cbn [set_fdt fdt files nofile last_errno] in *.
  rewrite Hfdt2.
  set (t1 := delete r2 (<[STDERR_FILENO:=Ofd filepath (oflag_of append)]>
               (<[r2:=Ofd filepath (oflag_of append)]> (<[r1:=d0]> (fdt s))))).
  assert (Htok : t1 !! r1 = Some d0).
  { unfold t1. rewrite lookup_delete_ne by done.
    rewrite !lookup_insert_ne by done. apply lookup_insert_eq. }
  split; [by exists d0|]. split.
  { unfold stderr_slot, t1. cbn. rewrite lookup_delete_ne by done.
    apply lookup_insert_eq. }
  rewrite (exec_end_open _ r1 d0); [|exact Htok|cbn; lia].
  cbn [result final]. split; [done|].
  assert (Hback : delete r1 (<[STDERR_FILENO:=d0]> t1) = fdt s).
  { apply map_eq. intros i. unfold t1.
    destruct (decide (i = r1)) as [->|Hi1]; [by rewrite lookup_delete_eq|].
    rewrite lookup_delete_ne by done.
    destruct (decide (i = STDERR_FILENO)) as [->|Hi2];
      [by rewrite lookup_insert_eq|].
    rewrite lookup_insert_ne by done.
    destruct (decide (i = r2)) as [->|Hi3]; [by rewrite lookup_delete_eq|].
    rewrite lookup_delete_ne by done. by rewrite !lookup_insert_ne. }
  unfold stderr_slot. cbn. by rewrite Hback.
Qed.

End PosixRuns.

(** ** Concrete runs on Linux *)

(** The flags on macOS, for comparison: no truncation flag either. *)
Example darwin_write_flags :
  @oflag_of darwin_fcntl false = 0x201 ∧
  has_flag (@oflag_of darwin_fcntl false) (@O_TRUNC darwin_fcntl) = false.
Proof. split; reflexivity. Qed.

(** C1. [begin_redirect_stderr("old.err", false)] on a file that holds the
    three bytes of "old": the file is opened with the flags write-only and
    create (65 on Linux), which do not include the truncation flag; the
    call succeeds and the file still holds the same three bytes, so it was
    not truncated. *)
Theorem begin_write_mode_no_truncation :
  let r := exec posix (begin_redirect_stderr "old.err" false) s0 in
  files s0 !! "old.err" = Some (Regular [Byte.x6f; Byte.x6c; Byte.x64]) ∧
  trace r = [Ev (Dup 2) 3; Ev (Open "old.err" (Z.lor O_WRONLY O_CREAT) 420) 4;
             Ev (Dup2 4 2) 2; Ev (Close 4) 0] ∧
  has_flag (Z.lor O_WRONLY O_CREAT) O_TRUNC = false ∧
  result r = Returned 3 ∧
  files (final r) !! "old.err" = Some (Regular [Byte.x6f; Byte.x6c; Byte.x64]).
Proof. cbv zeta. repeat split; reflexivity. Qed.

(** C2, refuted as stated.  [begin_redirect_stderr("new.err", true)] where
    the directory exists and holds no "new.err": the flags passed to [open]
    (1025 on Linux) do not include the create flag, the call fails with
    [ENOENT], the error of [open] is raised and there is still no file. *)
Lemma begin_append_mode_creates_nothing :
  let r := exec posix (begin_redirect_stderr "new.err" true) s0 in
  files s0 !! "new.err" = Some Vacant ∧
  trace r = [Ev (Dup 2) 3; Ev (Open "new.err" (Z.lor O_WRONLY O_APPEND) 420) (-1);
             Ev Errno ENOENT] ∧
  has_flag (Z.lor O_WRONLY O_APPEND) O_CREAT = false ∧
  result r =
    Raised "Error while calling open in begin_redirect_stderr: errno=2" ∧
  files (final r) !! "new.err" = Some Vacant.
Proof. cbv zeta. repeat split; reflexivity. Qed.

Lemma begin_append_mode_needs_file_witness :
  (files s0 !! "new.err" = Some Vacant ∨ files s0 !! "new.err" = None) ∧
  let r := exec posix (begin_redirect_stderr "new.err" true) s0 in
  get_oflag_bool true = Ret (Z.lor O_WRONLY O_APPEND) ∧
  access_mode (Z.lor O_WRONLY O_APPEND) = O_WRONLY ∧
  has_flag (Z.lor O_WRONLY O_APPEND) O_APPEND = true ∧
  has_flag (Z.lor O_WRONLY O_APPEND) O_CREAT = false ∧
  (∀ tok, result r ≠ Returned tok) ∧
  files (final r) = files s0 ∧
  (∀ tok, In (Ev (Dup STDERR_FILENO) tok) (trace r) → 0 ≤ tok →
     ∃ code, code ≠ 0 ∧
       result r = Raised (syscall_error "open" "begin_redirect_stderr" code)).
Proof.
  split; [left; reflexivity|].
  apply (begin_append_mode_needs_file s0 "new.err"). left. reflexivity.
Defined.

Lemma redirect_round_trip_witness :
  result (exec posix (begin_redirect_stderr "out.err" false) s0) = Returned 3 ∧
  let s1 := final (exec posix (begin_redirect_stderr "out.err" false) s0) in
  let r2 := exec posix (end_redirect_stderr 3) s1 in
  is_Some (stderr_slot s0) ∧
  stderr_slot s1 = Some (Ofd "out.err" (oflag_of false)) ∧
  result r2 = Returned STDERR_FILENO ∧
  stderr_slot (final r2) = stderr_slot s0 ∧
  fdt (final r2) = fdt s0.
Proof.
  split; [reflexivity|].
  apply (redirect_round_trip s0 "out.err" false 3). reflexivity.
Defined.

Lemma end_returns_dup2_status_witness :
  result (exec posix (end_redirect_stderr 3) s_redirected) = Returned 2 ∧
  2 = STDERR_FILENO ∧
  trace (exec posix (end_redirect_stderr 3) s_redirected) =
    [Ev (Dup2 3 STDERR_FILENO) 2; Ev (Close 3) 0] ∧
  fdt (final (exec posix (end_redirect_stderr 3) s_redirected)) !! 3 = None.
Proof.
  split; [reflexivity|].
  apply (end_returns_dup2_status s_redirected 3 2). reflexivity.
Defined.

Lemma end_invalid_token_raises_witness :
  fdt s0 !! 7 = None ∧
  let r := exec posix (end_redirect_stderr 7) s0 in
  result r =
    Raised ("Error while calling dup2 in end_redirect_stderr: errno="
            +:+ fmt_d EBADF) ∧
  trace r = [Ev (Dup2 7 STDERR_FILENO) (-1); Ev Errno EBADF] ∧
  (∀ e, In e (trace r) → is_close (ev_call e) = false) ∧
  fdt (final r) = fdt s0 ∧
  stderr_slot (final r) = stderr_slot s0.
Proof.
  split; [reflexivity|].
  apply (end_invalid_token_raises s0 7). reflexivity.
Defined.

Lemma begin_open_failure_no_redirect_witness :
  let r := exec posix (begin_redirect_stderr "nodir/new.err" false) s0 in
  In (Ev (Open "nodir/new.err" 65 420) (-1)) (trace r) ∧ -1 < 0 ∧
  ∃ code, code ≠ 0 ∧
    result r =
      Raised ("Error while calling open in begin_redirect_stderr: errno="
              +:+ fmt_d code) ∧
    (∀ e, In e (trace r) → is_dup2 (ev_call e) = false) ∧
    stderr_slot (final r) = stderr_slot s0.
Proof.
  cbv zeta. split; [right; left; reflexivity|]. split; [lia|].
  apply (begin_open_failure_no_redirect s0 "nodir/new.err" false 65 420 (-1));
    [right; left; reflexivity|lia].
Defined.

(** ** More on the calls of the POSIX model *)

Section PosixForward.
Context `{Fcntl}.

Lemma oflag_creat append : has_flag (oflag_of append) O_CREAT = negb append.
Proof.
  destruct append; [apply oflag_append_flags|apply oflag_write_flags].
Qed.

Lemma oflag_trunc append : has_flag (oflag_of append) O_TRUNC = false.
Proof.
  destruct append; [apply oflag_append_flags|apply oflag_write_flags].
Qed.

Lemma posix_dup_nonneg fd s r s' :
  posix_dup fd s = (r, s') → 0 ≤ r →
  ∃ d, fdt s !! fd = Some d ∧ lowest_free (fdt s) (nofile s) = Some r ∧
       s' = set_fdt (<[r:=d]> (fdt s)) s.
Proof.
  unfold posix_dup. destruct (fdt s !! fd) as [d|].
  - destruct (lowest_free _ _) as [n|]; intros [= <- <-] Hr; [eauto|lia].
  - intros [= <- <-] Hr. lia.
Qed.

Lemma posix_dup_neg fd s r s' :
  posix_dup fd s = (r, s') → r < 0 →
  (fdt s !! fd = None ∧ (r, s') = fail EBADF s) ∨
  (is_Some (fdt s !! fd) ∧ lowest_free (fdt s) (nofile s) = None ∧
   (r, s') = fail EMFILE s).
Proof.
  unfold posix_dup. destruct (fdt s !! fd) as [d|] eqn:Hfd.
  - destruct (lowest_free _ _) as [n|] eqn:Hn; intros [= <- <-] Hr.
    + apply lowest_free_Some in Hn. lia.
    + right. eauto.
  - intros [= <- <-] Hr. by left.
Qed.

(** What [open] does with the flags of [get_oflag(bool)]. *)
Lemma posix_open_nonneg path append mode s r s' :
  posix_open path (oflag_of append) mode s = (r, s') → 0 ≤ r →
  lowest_free (fdt s) (nofile s) = Some r ∧
  ((∃ c, files s !! path = Some (Regular c)) ∨
   (append = false ∧ files s !! path = Some Vacant)) ∧
  s' = set_files (files_after_open path (files s))
         (set_fdt (<[r:=Ofd path (oflag_of append)]> (fdt s)) s).
Proof.
  unfold posix_open, files_after_open. rewrite oflag_creat, oflag_trunc.
  destruct (lowest_free _ _) as [n|]; [|intros [= <- <-] Hr; lia].
  destruct (files s !! path) as [[|c|]|] eqn:Hp.
  - destruct append; cbn [negb]; intros [= <- <-] Hr; [lia|]. eauto.
  - intros [= <- <-] Hr. split; [done|]. split; [eauto|]. by destruct s.
  - intros [= <- <-] Hr. lia.
  - intros [= <- <-] Hr. lia.
Qed.

Lemma posix_open_ok path append mode s n :
  lowest_free (fdt s) (nofile s) = Some n →
  (∃ c, files s !! path = Some (Regular c)) ∨
  (append = false ∧ files s !! path = Some Vacant) →
  posix_open path (oflag_of append) mode s =
  (n, set_files (files_after_open path (files s))
        (set_fdt (<[n:=Ofd path (oflag_of append)]> (fdt s)) s)).
Proof.
  intros Hn Hfile. unfold posix_open, files_after_open.
  rewrite Hn, oflag_creat, oflag_trunc.
  destruct Hfile as [[c ->]|[-> ->]]; [|done]. by destruct s.
Qed.

Lemma posix_open_neg path oflag mode s r s' :
  posix_open path oflag mode s = (r, s') → r < 0 →
  ∃ code, (code = EMFILE ∨ code = ENOENT ∨ code = EACCES) ∧
    (r, s') = fail code s.
Proof.
  unfold posix_open. destruct (lowest_free _ _) as [n|] eqn:Hn.
  - apply lowest_free_Some in Hn as [Hn _].
    destruct (files s !! path) as [[|c|]|].
    + destruct (has_flag oflag O_CREAT); intros [= <- <-] Hr; [lia|eauto].
    + destruct (has_flag oflag O_TRUNC); intros [= <- <-] Hr; lia.
    + intros [= <- <-] Hr. eauto 6.
    + intros [= <- <-] Hr. eauto.
  - intros [= <- <-] Hr. eauto.
Qed.

Lemma posix_dup2_neg fd fd2 s r s' :
  posix_dup2 fd fd2 s = (r, s') → r < 0 → 0 ≤ fd2 →
  (fdt s !! fd = None ∨ Z.of_nat (nofile s) ≤ fd2) ∧ (r, s') = fail EBADF s.
Proof.
  unfold posix_dup2. destruct (fdt s !! fd) as [d|].
  - destruct (Z.leb_spec 0 fd2); [|lia]. cbn [andb].
    destruct (Z.ltb_spec fd2 (Z.of_nat (nofile s))).
    + destruct (fd =? fd2); intros [= <- <-] Hr; lia.
    + intros [= <- <-] _ _. split; [by right|done].
  - intros [= <- <-] _ _. split; [by left|done].
Qed.

End PosixForward.

(** ** The runs of the two functions on the POSIX model, in full *)

Section PosixExact.
Context `{Fcntl}.

Lemma posix_dup_ok fd d n s :
  fdt s !! fd = Some d → lowest_free (fdt s) (nofile s) = Some n →
  posix_dup fd s = (n, set_fdt (<[n:=d]> (fdt s)) s).
Proof. intros Hfd Hn. unfold posix_dup. by rewrite Hfd, Hn. Qed.

Lemma close_temporary (t : gmap Z ofd) fd f :
  t !! fd = None → fd ≠ STDERR_FILENO →
  delete fd (<[STDERR_FILENO:=f]> (<[fd:=f]> t)) = <[STDERR_FILENO:=f]> t.
Proof.
  intros Hfree Hne. apply map_eq. intros i.
  destruct (decide (i = fd)) as [->|Hi].
  - rewrite lookup_delete_eq. by rewrite lookup_insert_ne.
  - rewrite lookup_delete_ne by done.
    destruct (decide (i = STDERR_FILENO)) as [->|Hi2].
    + by rewrite !lookup_insert_eq.
    + by rewrite !lookup_insert_ne.
Qed.

(** The conditions under which [begin_redirect_stderr] goes through: the
    standard-error descriptor is open, [tok] and then [fd] are the lowest
    free descriptors, the limit is above 2, and the file exists or may be
    created. *)
Lemma exec_begin_ok s filepath append d0 tok fd :
  fdt s !! STDERR_FILENO = Some d0 →
  lowest_free (fdt s) (nofile s) = Some tok →
  lowest_free (<[tok:=d0]> (fdt s)) (nofile s) = Some fd →
  STDERR_FILENO < Z.of_nat (nofile s) →
  (∃ c, files s !! filepath = Some (Regular c)) ∨
  (append = false ∧ files s !! filepath = Some Vacant) →
  exec posix (begin_redirect_stderr filepath append) s =
  Run [Ev (Dup STDERR_FILENO) tok;
       Ev (Open filepath (oflag_of append) open_mode) fd;
       Ev (Dup2 fd STDERR_FILENO) STDERR_FILENO; Ev (Close fd) 0]
      (Returned tok)
      (Os (<[STDERR_FILENO:=Ofd filepath (oflag_of append)]>
             (<[tok:=d0]> (fdt s)))
          (files_after_open filepath (files s)) (nofile s) (last_errno s)).
Proof.
  intros Hslot Htok Hfd Hlim Hfile.
  pose proof (lowest_free_Some _ _ _ Htok) as [Htok0 Htokfree].
  pose proof (lowest_free_Some _ _ _ Hfd) as [Hfd0 Hfdfree].
  apply lookup_insert_None in Hfdfree as [Hfdfree Hne].
  assert (Hfd2 : fd ≠ STDERR_FILENO) by (intros ->; congruence).
  set (f := Ofd filepath (oflag_of append)).
  set (s1 := set_fdt (<[tok:=d0]> (fdt s)) s).
  set (s2 := set_files (files_after_open filepath (files s))
               (set_fdt (<[fd:=f]> (fdt s1)) s1)).
  assert (Hdup : posix_dup STDERR_FILENO s = (tok, s1))
    by by apply posix_dup_ok.
  assert (Hopen : posix_open filepath (oflag_of append) open_mode s1 = (fd, s2))
    by exact (posix_open_ok filepath append open_mode s1 fd Hfd Hfile).
  assert (Hsub : posix_dup2 fd STDERR_FILENO s2 =
                 (STDERR_FILENO, set_fdt (<[STDERR_FILENO:=f]> (fdt s2)) s2)).
  { apply posix_dup2_open; [apply lookup_insert_eq|].
    cbn. unfold STDERR_FILENO in *. lia. }
  assert (Hclose : posix_close fd (set_fdt (<[STDERR_FILENO:=f]> (fdt s2)) s2)
                   = (0, set_fdt (delete fd (<[STDERR_FILENO:=f]> (fdt s2)))
                           s2)).
  { rewrite (posix_close_open fd f); [done|]. cbn.
    rewrite lookup_insert_ne by done. apply lookup_insert_eq. }
  destruct (exec_begin_run posix s filepath append)
    as [r1 w1 e w' Hd Hr1 He
       |r1 w1 r2 w2 e w' Hd Hr1 Ho Hr2 He
       |r1 w1 r2 w2 r3 w3 e w' Hd Hr1 Ho Hr2 Hs Hr3 He
       |r1 w1 r2 w2 r3 w3 r4 w' Hd Hr1 Ho Hr2 Hs Hr3 Hc];
    cbn [posix] in *; rewrite Hdup in Hd; injection Hd as <- <-;
    try (exfalso; lia);
    rewrite Hopen in Ho; injection Ho as <- <-; try (exfalso; lia);
    rewrite Hsub in Hs; injection Hs as <- <-;
    try (exfalso; unfold STDERR_FILENO in *; lia).
  change (posix_close fd (set_fdt (<[STDERR_FILENO:=f]> (fdt s2)) s2)
          = (r4, w')) in Hc.
  rewrite Hclose in Hc. injection Hc as <- <-.
  cbn. f_equal. f_equal.
  rewrite close_temporary; [done| |done].
  by apply lookup_insert_None.
Qed.

(** Conversely, a run that returns a token met these conditions. *)
Lemma begin_returned_inv s filepath append tok :
  result (exec posix (begin_redirect_stderr filepath append) s) = Returned tok →
  ∃ d0 fd,
    fdt s !! STDERR_FILENO = Some d0 ∧
    lowest_free (fdt s) (nofile s) = Some tok ∧
    lowest_free (<[tok:=d0]> (fdt s)) (nofile s) = Some fd ∧
    STDERR_FILENO < Z.of_nat (nofile s) ∧
    ((∃ c, files s !! filepath = Some (Regular c)) ∨
     (append = false ∧ files s !! filepath = Some Vacant)).
Proof.
  destruct (exec_begin_run posix s filepath append)
    as [| | |r1 s1 r2 s2 r3 s3 r4 s' Hd Hr1 Ho Hr2 Hs Hr3 Hc];
    cbn [result]; intros [= <-]. cbn [posix] in *.
  apply posix_dup_nonneg in Hd as (d0 & Hslot & Htok & ->); [|done].
  apply posix_open_nonneg in Ho as (Hfd & Hfile & ->); [|done].
  apply posix_dup2_inv in Hs as [(-> & _)|(d & _ & _ & Hrange & _)];
    [exfalso; lia|].
  exists d0, r2. repeat split; (done || (cbn in Hrange; lia)).
Qed.

End PosixExact.

Section PosixCases.
Context `{Fcntl}.

Lemma exec_begin_posix s filepath append :
  begin_posix filepath append s
    (exec posix (begin_redirect_stderr filepath append) s).
Proof.
  pose proof (exec_begin_run posix s filepath append) as Hrun.
  remember (exec posix (begin_redirect_stderr filepath append) s) as r eqn:Hexec.
  destruct Hrun
    as [r1 w1 e w' Hd Hr1 He
       |r1 w1 r2 w2 e w' Hd Hr1 Ho Hr2 He
       |r1 w1 r2 w2 r3 w3 e w' Hd Hr1 Ho Hr2 Hs Hr3 He
       |r1 w1 r2 w2 r3 w3 r4 w' Hd Hr1 Ho Hr2 Hs Hr3 Hc];
    cbn [posix] in *; clear Hexec.
  - apply posix_errno in He as [-> ->].
    apply posix_dup_neg in Hd as [[Hslot [= -> ->]]|([d Hslot] & Hfull & [= -> ->])];
      [| |done]; cbn [last_errno].
    + apply begin_posix_dup_failed; [by rewrite Hslot|by left].
    + apply begin_posix_dup_failed; [by rewrite Hslot|by right].
  - apply posix_errno in He as [-> ->].
    apply posix_dup_nonneg in Hd as (d0 & Hslot & Htok & ->); [|done].
    apply posix_open_neg in Ho as (code & Hcode & [= -> ->]); [|done].
    cbn. by apply begin_posix_open_failed.
  - apply posix_errno in He as [-> ->].
    apply posix_dup_nonneg in Hd as (d0 & Hslot & Htok & ->); [|done].
    apply posix_open_nonneg in Ho as (Hfd & Hfile & ->); [|done].
    apply posix_dup2_neg in Hs as [[Hclosed|Hlim] [= -> ->]];
      [| |done|by unfold STDERR_FILENO].
    + cbn in Hclosed. by rewrite lookup_insert_eq in Hclosed.
    + cbn. by apply begin_posix_dup2_failed.
  - apply posix_dup_nonneg in Hd as (d0 & Hslot & Htok & ->); [|done].
    apply posix_open_nonneg in Ho as (Hfd & Hfile & ->); [|done].
    pose proof (lowest_free_Some _ _ _ Hfd) as [_ Hfree].
    cbn in Hfd, Hfree.
    apply lookup_insert_None in Hfree as [Hfree Hne].
    assert (Hfd2 : r2 ≠ STDERR_FILENO) by (intros ->; congruence).
    apply posix_dup2_inv in Hs as [(-> & _)|(d & Hd & -> & Hrange & ->)];
      [exfalso; lia|].
    cbn in Hd, Hrange. rewrite lookup_insert_eq in Hd. injection Hd as <-.
    rewrite (posix_close_open r2 (Ofd filepath (oflag_of append))) in Hc.
    2: { cbn. rewrite lookup_insert_ne by done. apply lookup_insert_eq. }
    injection Hc as <- <-. cbn.
    rewrite close_temporary; [|by apply lookup_insert_None|done].
    unfold set_fdt, set_files. cbn [fdt files nofile last_errno].
    apply begin_posix_done; (done || lia).
Qed.

Lemma exec_end_posix s old_stderr :
  end_posix old_stderr s (exec posix (end_redirect_stderr old_stderr) s).
Proof.
  destruct (exec_end_run posix s old_stderr)
    as [r s1 e s' Hd Hr He|r s1 c s' Hd Hr Hc]; cbn [posix] in *.
  - apply posix_errno in He as [-> ->].
    apply posix_dup2_neg in Hd as [Hwhy [= -> ->]];
      [|done|by unfold STDERR_FILENO].
    cbn. by apply end_posix_failed.
  - apply posix_dup2_inv in Hd as [(-> & _)|(d & Hfd & -> & Hrange & ->)];
      [exfalso; lia|].
    assert (Hopen : fdt (set_fdt (<[STDERR_FILENO:=d]> (fdt s)) s) !! old_stderr
                    = Some d).
    { cbn -[STDERR_FILENO].
      destruct (decide (old_stderr = STDERR_FILENO)) as [->|Hne].
      - apply lookup_insert_eq.
      - by rewrite lookup_insert_ne. }
    rewrite (posix_close_open _ _ _ Hopen) in Hc. injection Hc as <- <-.
    exact (end_posix_done old_stderr s d Hfd (proj2 Hrange)).
Qed.

End PosixCases.

(** ** Further properties of [end_redirect_stderr] *)

Section EndProperties.
Context `{Fcntl}.

(** X1. In every run of [end_redirect_stderr], whatever the operating
    system answers: the first call is the [dup2] of the token onto the
    standard-error descriptor.  When it returns a negative value, the only
    other call is the read of [errno] and the error of [dup2] is raised
    with that value.  Otherwise the token is closed and the value of [dup2]
    is returned, whatever the [close] returns: its result is not looked
    at. *)
Theorem end_raises_iff_dup2_fails {W} (h : handler W) (w : W)
    (old_stderr : Z) :
  let r := exec h (end_redirect_stderr old_stderr) w in
  let ret := (h (Dup2 old_stderr STDERR_FILENO) w).1 in
  (ret < 0 ∧
   ∃ code, trace r = [Ev (Dup2 old_stderr STDERR_FILENO) ret; Ev Errno code] ∧
     result r =
       Raised ("Error while calling dup2 in end_redirect_stderr: errno="
               +:+ fmt_d code)) ∨
  (0 ≤ ret ∧
   ∃ c, trace r = [Ev (Dup2 old_stderr STDERR_FILENO) ret;
                   Ev (Close old_stderr) c] ∧
     result r = Returned ret).
Proof.
  cbv zeta. destruct (exec_end_run h w old_stderr)
    as [r w1 e w' Hd Hr He|r w1 c w' Hd Hr Hc]; rewrite Hd; cbn.
  - left. eauto.
  - right. eauto.
Qed.

(** X10. Where the descriptor limit is above 2, [end_redirect_stderr]
    takes any open descriptor for a token, wherever it comes from.  It
    returns 2 and closes that descriptor; the standard-error slot then
    refers to what the descriptor referred to.  Called on the
    standard-error descriptor itself, it leaves the standard-error slot
    closed.  Every other descriptor is as before. *)
Theorem end_accepts_any_open_descriptor (s : os) (tok : Z) (d : ofd) :
  fdt s !! tok = Some d →
  STDERR_FILENO < Z.of_nat (nofile s) →
  let r := exec posix (end_redirect_stderr tok) s in
  result r = Returned STDERR_FILENO ∧
  fdt (final r) !! tok = None ∧
  stderr_slot (final r) = (if decide (tok = STDERR_FILENO) then None else Some d) ∧
  (∀ fd, fd ≠ tok → fd ≠ STDERR_FILENO → fdt (final r) !! fd = fdt s !! fd).
Proof.
  intros Htok Hlim. cbv zeta.
  destruct (exec_end_posix s tok) as [[Hclosed|Hlow]|d' Hd' _];
    [congruence|lia|].
  cbn [result final]. rewrite Htok in Hd'. injection Hd' as <-.
  split; [done|]. cbn. split; [apply lookup_delete_eq|]. split.
  - unfold stderr_slot. cbn. destruct (decide (tok = STDERR_FILENO)) as [->|Hne].
    + apply lookup_delete_eq.
    + rewrite lookup_delete_ne by done. apply lookup_insert_eq.
  - intros fd Hfd1 Hfd2. rewrite lookup_delete_ne by done.
    by rewrite lookup_insert_ne.
Qed.

(** X16. No run of [end_redirect_stderr] changes the file system, the
    descriptor limit, or a descriptor other than the token and the
    standard-error slot. *)
Theorem end_changes_nothing_else (s : os) (tok : Z) :
  let r := exec posix (end_redirect_stderr tok) s in
  files (final r) = files s ∧
  nofile (final r) = nofile s ∧
  ∀ fd, fd ≠ tok → fd ≠ STDERR_FILENO → fdt (final r) !! fd = fdt s !! fd.
Proof.
  cbv zeta. destruct (exec_end_posix s tok) as [_|d Hd _]; cbn; [done|].
  repeat split. intros fd Hfd1 Hfd2. rewrite lookup_delete_ne by done.
  by rewrite lookup_insert_ne.
Qed.

End EndProperties.

(** ** Further properties of [begin_redirect_stderr] *)

Section BeginProperties.
Context `{Fcntl}.

Ltac in_trace H :=
  repeat (destruct H as [H|H]; [try discriminate H|]);
  try contradiction H.

(** X2. When the standard-error descriptor is not open, or no descriptor
    is free, the initial [dup] fails: the error of [dup] is raised, with
    [EBADF] in the first case and [EMFILE] in the second; no other call
    than the read of [errno] is made, so the file is not opened, and the
    descriptor table and the file system are as before. *)
Theorem begin_dup_failure_stops (s : os) (filepath : string) (append : bool) :
  fdt s !! STDERR_FILENO = None ∨ lowest_free (fdt s) (nofile s) = None →
  let r := exec posix (begin_redirect_stderr filepath append) s in
  let code := match fdt s !! STDERR_FILENO with
              | None => EBADF
              | Some _ => EMFILE
              end in
  trace r = [Ev (Dup STDERR_FILENO) (-1); Ev Errno code] ∧
  result r =
    Raised ("Error while calling dup in begin_redirect_stderr: errno="
            +:+ fmt_d code) ∧
  fdt (final r) = fdt s ∧
  files (final r) = files s.
Proof.
  intros Hwhy. cbv zeta.
  destruct (exec_begin_posix s filepath append)
    as [code -> _|d0 tok code Hslot Htok _
       |d0 tok fd Hslot Htok _ _ _|d0 tok fd Hslot Htok _ _ _];
    [done|destruct Hwhy; congruence..].
Qed.

(** X3. When the [open] call fails, the duplicate of the standard-error
    descriptor made by the initial [dup] stays open: the descriptor table
    is the one before the call with one more descriptor, which refers to
    what the standard-error slot refers to.  No [close] call is made and
    the file system is as before. *)
Theorem begin_open_failure_leaks_token (s : os) (filepath : string)
    (append : bool) (oflag mode ret : Z) :
  let r := exec posix (begin_redirect_stderr filepath append) s in
  In (Ev (Open filepath oflag mode) ret) (trace r) → ret < 0 →
  (∃ tok d0, stderr_slot s = Some d0 ∧ fdt s !! tok = None ∧
     fdt (final r) = <[tok:=d0]> (fdt s)) ∧
  files (final r) = files s ∧
  (∀ e, In e (trace r) → is_close (ev_call e) = false).
Proof.
  cbv zeta.
  destruct (exec_begin_posix s filepath append)
    as [code -> _|d0 tok code Hslot Htok _
       |d0 tok fd Hslot Htok Hfd _ _|d0 tok fd Hslot Htok Hfd _ _];
    cbn [trace final]; intros Hin Hneg; cbn in Hin; in_trace Hin.
  - apply lowest_free_Some in Htok as [_ Hfree].
    split; [by exists tok, d0|]. split; [done|].
    intros e He. cbn in He. in_trace He; by subst e.
  - injection Hin as _ _ <-. apply lowest_free_Some in Hfd. lia.
  - injection Hin as _ _ <-. apply lowest_free_Some in Hfd. lia.
Qed.

(** X4. When the [dup2] call fails, the error of [dup2] is raised and
    nothing is closed: both the duplicate of the standard-error descriptor
    and the descriptor of the file stay open, and a file that [open]
    created stays in place.  The standard-error slot is as before. *)
Theorem begin_dup2_failure_leaks_both (s : os) (filepath : string)
    (append : bool) (fd ret : Z) :
  let r := exec posix (begin_redirect_stderr filepath append) s in
  In (Ev (Dup2 fd STDERR_FILENO) ret) (trace r) → ret < 0 →
  result r =
    Raised ("Error while calling dup2 in begin_redirect_stderr: errno="
            +:+ fmt_d EBADF) ∧
  (∃ tok d0, stderr_slot s = Some d0 ∧ fdt s !! tok = None ∧
     fdt s !! fd = None ∧ tok ≠ fd ∧
     fdt (final r) =
       <[fd:=Ofd filepath (oflag_of append)]> (<[tok:=d0]> (fdt s))) ∧
  stderr_slot (final r) = stderr_slot s ∧
  files (final r) = files_after_open filepath (files s) ∧
  (∀ e, In e (trace r) → is_close (ev_call e) = false).
Proof.
  cbv zeta.
  destruct (exec_begin_posix s filepath append)
    as [code -> _|d0 tok code Hslot Htok _
       |d0 tok fd' Hslot Htok Hfd _ _|d0 tok fd' Hslot Htok Hfd _ Hlim];
    cbn [trace final result]; intros Hin Hneg; cbn in Hin; in_trace Hin.
  - injection Hin as <- <-.
    apply lowest_free_Some in Htok as [_ Hfree].
    apply lowest_free_Some in Hfd as [_ Hfree2].
    apply lookup_insert_None in Hfree2 as [Hfree2 Hne].
    split; [done|]. split; [by exists tok, d0|]. split.
    + unfold stderr_slot. cbn.
      rewrite !lookup_insert_ne; [done|intros ->; congruence..].
    + split; [done|]. intros e He. cbn in He. in_trace He; by subst e.
  - injection Hin as _ <-. unfold STDERR_FILENO in Hneg. lia.
Qed.

(** X5. When [begin_redirect_stderr] returns, its token is a
    non-negative descriptor other than 2 that was free before the call and
    now refers to what the standard-error slot referred to; the slot
    refers to the file; the descriptor [open] returned is closed again, so
    the table holds nothing else new.  The limit and [errno] are as
    before, and the only change to the file system is an empty file where
    the path was vacant. *)
Theorem begin_success_state (s : os) (filepath : string) (append : bool)
    (tok : Z) :
  let r := exec posix (begin_redirect_stderr filepath append) s in
  result r = Returned tok →
  0 ≤ tok ∧ tok ≠ STDERR_FILENO ∧ fdt s !! tok = None ∧
  (∃ d0, stderr_slot s = Some d0 ∧
     fdt (final r) =
       <[STDERR_FILENO:=Ofd filepath (oflag_of append)]>
         (<[tok:=d0]> (fdt s))) ∧
  files (final r) = files_after_open filepath (files s) ∧
  nofile (final r) = nofile s ∧
  last_errno (final r) = last_errno s.
Proof.
  cbv zeta.
  destruct (exec_begin_posix s filepath append)
    as [code -> _|d0 tok' code Hslot Htok _
       |d0 tok' fd Hslot Htok Hfd _ _|d0 tok' fd Hslot Htok Hfd _ _];
    cbn [result final]; intros [= <-].
  apply lowest_free_Some in Htok as [Hpos Hfree].
  split; [lia|]. split; [intros ->; congruence|]. split; [done|].
  split; [by exists d0|]. done.
Qed.

(** X6. [begin_redirect_stderr] returns the token [tok] exactly when the
    standard-error descriptor is open, [tok] is the lowest free descriptor
    and another one is free once [tok] is taken, the descriptor limit is
    above 2, and the file exists or, with [append = false], its directory
    does. *)
Theorem begin_succeeds_iff (s : os) (filepath : string) (append : bool)
    (tok : Z) :
  result (exec posix (begin_redirect_stderr filepath append) s) = Returned tok
  ↔
  ∃ d0 fd,
    fdt s !! STDERR_FILENO = Some d0 ∧
    lowest_free (fdt s) (nofile s) = Some tok ∧
    lowest_free (<[tok:=d0]> (fdt s)) (nofile s) = Some fd ∧
    STDERR_FILENO < Z.of_nat (nofile s) ∧
    ((∃ c, files s !! filepath = Some (Regular c)) ∨
     (append = false ∧ files s !! filepath = Some Vacant)).
Proof.
  split; [apply begin_returned_inv|].
  intros (d0 & fd & Hslot & Htok & Hfd & Hlim & Hfile).
  by rewrite (exec_begin_ok s filepath append d0 tok fd).
Qed.

(** X7. Whichever way a run of [begin_redirect_stderr] ends, the file
    system is as before, except that with [append = false] an empty file
    may have been created at [filepath] where there was none.  No file
    that exists loses its content, in either mode. *)
Theorem begin_file_system_effect (s : os) (filepath : string)
    (append : bool) :
  let r := exec posix (begin_redirect_stderr filepath append) s in
  (files (final r) = files s ∨
   (append = false ∧ files s !! filepath = Some Vacant ∧
    files (final r) = <[filepath:=Regular []]> (files s))) ∧
  (∀ path content, files s !! path = Some (Regular content) →
     files (final r) !! path = Some (Regular content)).
Proof.
  cbv zeta.
  assert (Hopen :
    (∃ c, files s !! filepath = Some (Regular c)) ∨
    (append = false ∧ files s !! filepath = Some Vacant) →
    (files_after_open filepath (files s) = files s ∨
     (append = false ∧ files s !! filepath = Some Vacant ∧
      files_after_open filepath (files s)
        = <[filepath:=Regular []]> (files s))) ∧
    (∀ path content, files s !! path = Some (Regular content) →
       files_after_open filepath (files s) !! path = Some (Regular content))).
  { unfold files_after_open. intros [[c Hc]|[-> Hv]].
    - rewrite Hc. by split; [left|].
    - rewrite Hv. split; [by right|]. intros path content Hp.
      rewrite lookup_insert_ne; [done|]. intros <-. congruence. }
  destruct (exec_begin_posix s filepath append)
    as [code -> _|d0 tok code Hslot Htok _
       |d0 tok fd Hslot Htok Hfd Hfile _|d0 tok fd Hslot Htok Hfd Hfile _];
    cbn [final files]; auto.
Qed.

(** X12. On the POSIX model an error of either function never reports
    [errno=0]: the code in the message is the non-zero code the failing
    call left in [errno].  A call that returns leaves [errno] as it was. *)
Theorem errors_report_errno (s : os) (filepath : string) (append : bool)
    (tok : Z) :
  let rb := exec posix (begin_redirect_stderr filepath append) s in
  let re := exec posix (end_redirect_stderr tok) s in
  match result rb with
  | Raised msg =>
      last_errno (final rb) ≠ 0 ∧
      ∃ name, (name = "dup" ∨ name = "open" ∨ name = "dup2") ∧
        msg = "Error while calling " +:+ name +:+
              " in begin_redirect_stderr: errno="
              +:+ fmt_d (last_errno (final rb))
  | Returned _ => last_errno (final rb) = last_errno s
  end ∧
  match result re with
  | Raised msg =>
      last_errno (final re) ≠ 0 ∧
      msg = "Error while calling dup2 in end_redirect_stderr: errno="
            +:+ fmt_d (last_errno (final re))
  | Returned _ => last_errno (final re) = last_errno s
  end.
Proof.
  cbv zeta. split.
  - destruct (exec_begin_posix s filepath append)
      as [code -> _|d0 tok' code Hslot Htok Hcode
         |d0 tok' fd Hslot Htok Hfd _ _|d0 tok' fd Hslot Htok Hfd _ _];
      cbn [result final last_errno]; [| | |done].
    + split; [by destruct (fdt s !! STDERR_FILENO)|]. exists "dup". eauto.
    + split; [by destruct Hcode as [->|[->| ->]]|]. exists "open". eauto.
    + split; [done|]. exists "dup2". eauto.
  - destruct (exec_end_posix s tok) as [_|d Hd _];
      cbn [result final last_errno]; done.
Qed.

(** X15. No run of [begin_redirect_stderr] closes or redirects a
    descriptor that was open before the call, other than the
    standard-error slot; the descriptor limit stays as it was. *)
Theorem begin_keeps_open_descriptors (s : os) (filepath : string)
    (append : bool) :
  let r := exec posix (begin_redirect_stderr filepath append) s in
  nofile (final r) = nofile s ∧
  ∀ fd d, fd ≠ STDERR_FILENO → fdt s !! fd = Some d →
    fdt (final r) !! fd = Some d.
Proof.
  cbv zeta.
  destruct (exec_begin_posix s filepath append)
    as [code -> _|d0 tok code Hslot Htok _
       |d0 tok fd' Hslot Htok Hfd _ _|d0 tok fd' Hslot Htok Hfd _ _];
    cbn [final fdt nofile]; (split; [done|]); intros fd d Hne Hopen;
    try done.
  all: apply lowest_free_Some in Htok as [_ Hfree].
  - rewrite lookup_insert_ne; [done|intros ->; congruence].
  - apply lowest_free_Some in Hfd as [_ Hfree2].
    apply lookup_insert_None in Hfree2 as [Hfree2 _].
    rewrite !lookup_insert_ne; [done|intros ->; congruence..].
  - rewrite lookup_insert_ne by done.
    rewrite lookup_insert_ne; [done|intros ->; congruence].
Qed.

End BeginProperties.

(** ** Sequences of calls *)

Section Sequences.
Context `{Fcntl}.

(** The state a successful [begin_redirect_stderr] leaves. *)
Lemma begin_returned_final s filepath append tok :
  result (exec posix (begin_redirect_stderr filepath append) s) = Returned tok →
  ∃ d0, fdt s !! STDERR_FILENO = Some d0 ∧ fdt s !! tok = None ∧
    tok ≠ STDERR_FILENO ∧ STDERR_FILENO < Z.of_nat (nofile s) ∧
    final (exec posix (begin_redirect_stderr filepath append) s) =
      Os (<[STDERR_FILENO:=Ofd filepath (oflag_of append)]>
            (<[tok:=d0]> (fdt s)))
         (files_after_open filepath (files s)) (nofile s) (last_errno s).
Proof.
  intros Hret.
  apply begin_returned_inv in Hret as (d0 & fd & Hslot & Htok & Hfd & Hlim & Hf).
  rewrite (exec_begin_ok s filepath append d0 tok fd) by done.
  apply lowest_free_Some in Htok as [_ Hfree].
  exists d0. repeat split; try done. intros ->. congruence.
Qed.

Lemma exec_end_closed s tok :
  fdt s !! tok = None →
  exec posix (end_redirect_stderr tok) s =
  Run [Ev (Dup2 tok STDERR_FILENO) (-1); Ev Errno EBADF]
      (Raised (syscall_error "dup2" "end_redirect_stderr" EBADF))
      (Os (fdt s) (files s) (nofile s) EBADF).
Proof.
  intros Htok. destruct (exec_end_posix s tok) as [_|d Hd _]; [done|].
  congruence.
Qed.

(** Decides lookups in tables built from inserts and deletes. *)
Ltac table_lookup :=
  repeat (rewrite lookup_insert || rewrite lookup_delete);
  repeat case_decide; subst; try congruence.

(** X8. Redirections nest.  After two calls of [begin_redirect_stderr]
    that return, ending the second and then the first brings the
    standard-error slot back to the first file and then to where it was at
    the start; both calls of [end_redirect_stderr] return 2 and the
    descriptor table is at last the one before the first call. *)
Theorem nested_redirections_unwind (s : os) (path1 path2 : string)
    (append1 append2 : bool) (tok1 tok2 : Z) :
  let s1 := final (exec posix (begin_redirect_stderr path1 append1) s) in
  let s2 := final (exec posix (begin_redirect_stderr path2 append2) s1) in
  let r3 := exec posix (end_redirect_stderr tok2) s2 in
  let r4 := exec posix (end_redirect_stderr tok1) (final r3) in
  result (exec posix (begin_redirect_stderr path1 append1) s) = Returned tok1 →
  result (exec posix (begin_redirect_stderr path2 append2) s1) = Returned tok2 →
  tok1 ≠ tok2 ∧
  stderr_slot s2 = Some (Ofd path2 (oflag_of append2)) ∧
  result r3 = Returned STDERR_FILENO ∧
  stderr_slot (final r3) = Some (Ofd path1 (oflag_of append1)) ∧
  fdt (final r3) = fdt s1 ∧
  result r4 = Returned STDERR_FILENO ∧
  fdt (final r4) = fdt s.
Proof.
  cbv zeta. intros Hret1.
  apply begin_returned_final in Hret1
    as (d0 & Hslot & Hfree1 & Hne1 & Hlim & ->).
  intros Hret2.
  apply begin_returned_final in Hret2
    as (d1 & Hslot2 & Hfree2 & Hne2 & _ & ->).
  cbn [fdt files nofile last_errno] in *.
  rewrite lookup_insert_eq in Hslot2. injection Hslot2 as <-.
  rewrite lookup_insert_ne in Hfree2 by done.
  apply lookup_insert_None in Hfree2 as [Hfree2 Hne12].
  rewrite (exec_end_open _ tok2 (Ofd path1 (oflag_of append1)));
    [|cbn; table_lookup|done].
  cbn [result final set_fdt fdt files nofile last_errno].
  rewrite (exec_end_open _ tok1 d0); [|cbn; table_lookup|done].
  cbn [result final set_fdt fdt files nofile last_errno].
  split; [done|]. split; [apply lookup_insert_eq|]. split; [done|].
  split; [unfold stderr_slot; cbn; table_lookup|].
  split; [|split; [done|]]; apply map_eq; intros i; table_lookup.
Qed.

(** X9. Ending two nested redirections in the order they were begun does
    not restore the standard-error stream.  The first
    [end_redirect_stderr] brings the slot back to where it was at the
    start, and the second one, on the token of the second redirection,
    moves it onto the first file, where it stays: both calls return 2 and
    no token is left open. *)
Theorem nested_redirections_wrong_order (s : os) (path1 path2 : string)
    (append1 append2 : bool) (tok1 tok2 : Z) :
  let s1 := final (exec posix (begin_redirect_stderr path1 append1) s) in
  let s2 := final (exec posix (begin_redirect_stderr path2 append2) s1) in
  let r3 := exec posix (end_redirect_stderr tok1) s2 in
  let r4 := exec posix (end_redirect_stderr tok2) (final r3) in
  result (exec posix (begin_redirect_stderr path1 append1) s) = Returned tok1 →
  result (exec posix (begin_redirect_stderr path2 append2) s1) = Returned tok2 →
  result r3 = Returned STDERR_FILENO ∧
  stderr_slot (final r3) = stderr_slot s ∧
  result r4 = Returned STDERR_FILENO ∧
  stderr_slot (final r4) = Some (Ofd path1 (oflag_of append1)) ∧
  fdt (final r4) =
    <[STDERR_FILENO:=Ofd path1 (oflag_of append1)]> (fdt s).
Proof.
  cbv zeta. intros Hret1.
  apply begin_returned_final in Hret1
    as (d0 & Hslot & Hfree1 & Hne1 & Hlim & ->).
  intros Hret2.
  apply begin_returned_final in Hret2
    as (d1 & Hslot2 & Hfree2 & Hne2 & _ & ->).
  cbn [fdt files nofile last_errno] in *.
  rewrite lookup_insert_eq in Hslot2. injection Hslot2 as <-.
  rewrite lookup_insert_ne in Hfree2 by done.
  apply lookup_insert_None in Hfree2 as [Hfree2 Hne12].
  rewrite (exec_end_open _ tok1 d0); [|cbn; table_lookup|done].
  cbn [result final set_fdt fdt files nofile last_errno].
  rewrite (exec_end_open _ tok2 (Ofd path1 (oflag_of append1)));
    [|cbn; table_lookup|done].
  cbn [result final set_fdt fdt files nofile last_errno].
  split; [done|]. split; [unfold stderr_slot; cbn; table_lookup|].
  split; [done|]. split; [unfold stderr_slot; cbn; table_lookup|].
  apply map_eq; intros i; table_lookup.
Qed.

(** X11. A token can be used once.  After [begin_redirect_stderr] and
    [end_redirect_stderr] on its token, a second [end_redirect_stderr] on
    the same token raises the error of [dup2] with [EBADF]; it closes
    nothing and the descriptor table stays the one before the
    redirection. *)
Theorem end_twice_raises (s : os) (filepath : string) (append : bool)
    (tok : Z) :
  let s1 := final (exec posix (begin_redirect_stderr filepath append) s) in
  let s2 := final (exec posix (end_redirect_stderr tok) s1) in
  let r3 := exec posix (end_redirect_stderr tok) s2 in
  result (exec posix (begin_redirect_stderr filepath append) s) = Returned tok →
  result r3 =
    Raised ("Error while calling dup2 in end_redirect_stderr: errno="
            +:+ fmt_d EBADF) ∧
  trace r3 = [Ev (Dup2 tok STDERR_FILENO) (-1); Ev Errno EBADF] ∧
  fdt (final r3) = fdt s.
Proof.
  cbv zeta. intros Hret.
  apply begin_returned_final in Hret
    as (d0 & Hslot & Hfree & Hne & Hlim & ->).
  set (s1 := Os _ _ _ _).
  rewrite (exec_end_open s1 tok d0); [|cbn; table_lookup|done].
  subst s1. cbn [final set_fdt fdt files nofile last_errno].
  rewrite exec_end_closed; [|cbn; table_lookup].
  cbn [result trace final fdt set_fdt]. repeat split.
  apply map_eq; intros i; table_lookup.
Qed.

End Sequences.

(** ** The resolved flags, on every system *)

Section Flags.
Context `{Fcntl}.

(** X13. On every system, the flags [get_oflag(bool)] returns are
    write-only and never include the truncation flag; they include the
    append flag exactly when [append] is true and the create flag exactly
    when it is false. *)
Theorem resolved_flags (append : bool) :
  get_oflag_bool append = Ret (oflag_of append) ∧
  access_mode (oflag_of append) = O_WRONLY ∧
  has_flag (oflag_of append) O_APPEND = append ∧
  has_flag (oflag_of append) O_CREAT = negb append ∧
  has_flag (oflag_of append) O_TRUNC = false.
Proof.
  split; [apply get_oflag_bool_ret|].
  destruct append; cbn [negb].
  - exact oflag_append_flags.
  - destruct oflag_write_flags as (? & ? & ? & ?). auto.
Qed.

(** X14. [get_oflag(String)] never returns -1: the [return -1] that ends
    the function comes after [stop] and is not reached.  A value it
    returns is a set of write-only flags without the truncation flag. *)
Theorem get_oflag_never_minus_one (mode : string) (fl : Z) :
  get_oflag mode = Ret fl →
  fl ≠ -1 ∧ access_mode fl = O_WRONLY ∧ has_flag fl O_TRUNC = false.
Proof.
  intros Hret.
  assert (Hfl : access_mode fl = O_WRONLY ∧ has_flag fl O_TRUNC = false).
  { revert Hret. unfold get_oflag.
    destruct (String.eqb mode "w"); [intros [= <-]|].
    - destruct oflag_write_flags as (? & _ & _ & ?). auto.
    - destruct (String.eqb mode "a"); [intros [= <-]|discriminate].
      destruct oflag_append_flags as (? & _ & _ & ?). auto. }
  split; [|done]. intros ->. destruct Hfl as [_ Htrunc].
  unfold has_flag in Htrunc. rewrite Z.land_m1_l in Htrunc.
  by rewrite Z.eqb_refl in Htrunc.
Qed.

End Flags.

(** ** Concrete runs for the further properties *)

Lemma begin_dup_failure_stops_witness :
  ((fdt s_closed !! STDERR_FILENO = None ∨
    lowest_free (fdt s_closed) (nofile s_closed) = None) ∧
   let r := exec posix (begin_redirect_stderr "out.err" false) s_closed in
   let code := match fdt s_closed !! STDERR_FILENO with
               | None => EBADF
               | Some _ => EMFILE
               end in
   trace r = [Ev (Dup STDERR_FILENO) (-1); Ev Errno code] ∧
   result r =
     Raised ("Error while calling dup in begin_redirect_stderr: errno="
             +:+ fmt_d code) ∧
   fdt (final r) = fdt s_closed ∧
   files (final r) = files s_closed) ∧
  ((fdt s_full !! STDERR_FILENO = None ∨
    lowest_free (fdt s_full) (nofile s_full) = None) ∧
   let r := exec posix (begin_redirect_stderr "out.err" false) s_full in
   let code := match fdt s_full !! STDERR_FILENO with
               | None => EBADF
               | Some _ => EMFILE
               end in
   trace r = [Ev (Dup STDERR_FILENO) (-1); Ev Errno code] ∧
   result r =
     Raised ("Error while calling dup in begin_redirect_stderr: errno="
             +:+ fmt_d code) ∧
   fdt (final r) = fdt s_full ∧
   files (final r) = files s_full).
Proof.
  split.
  - split; [left; reflexivity|].
    apply (begin_dup_failure_stops s_closed "out.err" false).
    left. reflexivity.
  - split; [right; reflexivity|].
    apply (begin_dup_failure_stops s_full "out.err" false).
    right. reflexivity.
Defined.

Lemma begin_open_failure_leaks_token_witness :
  let r := exec posix (begin_redirect_stderr "out.err" false) s_tight in
  In (Ev (Open "out.err" 65 420) (-1)) (trace r) ∧ -1 < 0 ∧
  (∃ tok d0, stderr_slot s_tight = Some d0 ∧ fdt s_tight !! tok = None ∧
     fdt (final r) = <[tok:=d0]> (fdt s_tight)) ∧
  files (final r) = files s_tight ∧
  (∀ e, In e (trace r) → is_close (ev_call e) = false).
Proof.
  cbv zeta. split; [right; left; reflexivity|]. split; [lia|].
  apply (begin_open_failure_leaks_token s_tight "out.err" false 65 420 (-1));
    [right; left; reflexivity|lia].
Defined.

Lemma begin_dup2_failure_leaks_both_witness :
  let r := exec posix (begin_redirect_stderr "out.err" false) s_low in
  In (Ev (Dup2 1 STDERR_FILENO) (-1)) (trace r) ∧ -1 < 0 ∧
  result r =
    Raised ("Error while calling dup2 in begin_redirect_stderr: errno="
            +:+ fmt_d EBADF) ∧
  (∃ tok d0, stderr_slot s_low = Some d0 ∧ fdt s_low !! tok = None ∧
     fdt s_low !! 1 = None ∧ tok ≠ 1 ∧
     fdt (final r) =
       <[1:=Ofd "out.err" (oflag_of false)]> (<[tok:=d0]> (fdt s_low))) ∧
  stderr_slot (final r) = stderr_slot s_low ∧
  files (final r) = files_after_open "out.err" (files s_low) ∧
  (∀ e, In e (trace r) → is_close (ev_call e) = false).
Proof.
  cbv zeta. split; [do 2 right; left; reflexivity|]. split; [lia|].
  apply (begin_dup2_failure_leaks_both s_low "out.err" false 1 (-1));
    [do 2 right; left; reflexivity|lia].
Defined.

Lemma begin_success_state_witness :
  let r := exec posix (begin_redirect_stderr "out.err" false) s0 in
  result r = Returned 3 ∧
  0 ≤ 3 ∧ 3 ≠ STDERR_FILENO ∧ fdt s0 !! 3 = None ∧
  (∃ d0, stderr_slot s0 = Some d0 ∧
     fdt (final r) =
       <[STDERR_FILENO:=Ofd "out.err" (oflag_of false)]>
         (<[3:=d0]> (fdt s0))) ∧
  files (final r) = files_after_open "out.err" (files s0) ∧
  nofile (final r) = nofile s0 ∧
  last_errno (final r) = last_errno s0.
Proof.
  cbv zeta. split; [reflexivity|].
  apply (begin_success_state s0 "out.err" false 3). reflexivity.
Defined.

Lemma nested_redirections_unwind_witness :
  let s1 := final (exec posix (begin_redirect_stderr "out.err" false) s0) in
  let s2 := final (exec posix (begin_redirect_stderr "old.err" true) s1) in
  let r3 := exec posix (end_redirect_stderr 4) s2 in
  let r4 := exec posix (end_redirect_stderr 3) (final r3) in
  result (exec posix (begin_redirect_stderr "out.err" false) s0) = Returned 3 ∧
  result (exec posix (begin_redirect_stderr "old.err" true) s1) = Returned 4 ∧
  3 ≠ 4 ∧
  stderr_slot s2 = Some (Ofd "old.err" (oflag_of true)) ∧
  result r3 = Returned STDERR_FILENO ∧
  stderr_slot (final r3) = Some (Ofd "out.err" (oflag_of false)) ∧
  fdt (final r3) = fdt s1 ∧
  result r4 = Returned STDERR_FILENO ∧
  fdt (final r4) = fdt s0.
Proof.
  cbv zeta. split; [reflexivity|]. split; [reflexivity|].
  apply (nested_redirections_unwind s0 "out.err" "old.err" false true 3 4);
    reflexivity.
Defined.

Lemma nested_redirections_wrong_order_witness :
  let s1 := final (exec posix (begin_redirect_stderr "out.err" false) s0) in
  let s2 := final (exec posix (begin_redirect_stderr "old.err" true) s1) in
  let r3 := exec posix (end_redirect_stderr 3) s2 in
  let r4 := exec posix (end_redirect_stderr 4) (final r3) in
  result (exec posix (begin_redirect_stderr "out.err" false) s0) = Returned 3 ∧
  result (exec posix (begin_redirect_stderr "old.err" true) s1) = Returned 4 ∧
  result r3 = Returned STDERR_FILENO ∧
  stderr_slot (final r3) = stderr_slot s0 ∧
  result r4 = Returned STDERR_FILENO ∧
  stderr_slot (final r4) = Some (Ofd "out.err" (oflag_of false)) ∧
  fdt (final r4) =
    <[STDERR_FILENO:=Ofd "out.err" (oflag_of false)]> (fdt s0).
Proof.
  cbv zeta. split; [reflexivity|]. split; [reflexivity|].
  apply (nested_redirections_wrong_order s0 "out.err" "old.err"
           false true 3 4); reflexivity.
Defined.

Lemma end_accepts_any_open_descriptor_witness :
  (fdt s_redirected !! 0 = Some tty ∧
   STDERR_FILENO < Z.of_nat (nofile s_redirected) ∧
   stderr_slot s_redirected = Some (Ofd "out.err" 65) ∧
   let r := exec posix (end_redirect_stderr 0) s_redirected in
   result r = Returned STDERR_FILENO ∧
   fdt (final r) !! 0 = None ∧
   stderr_slot (final r) =
     (if decide (0 = STDERR_FILENO) then None else Some tty) ∧
   (∀ fd, fd ≠ 0 → fd ≠ STDERR_FILENO →
      fdt (final r) !! fd = fdt s_redirected !! fd)) ∧
  (fdt s0 !! STDERR_FILENO = Some tty ∧
   STDERR_FILENO < Z.of_nat (nofile s0) ∧
   let r := exec posix (end_redirect_stderr STDERR_FILENO) s0 in
   result r = Returned STDERR_FILENO ∧
   fdt (final r) !! STDERR_FILENO = None ∧
   stderr_slot (final r) =
     (if decide (STDERR_FILENO = STDERR_FILENO) then None else Some tty) ∧
   (∀ fd, fd ≠ STDERR_FILENO → fd ≠ STDERR_FILENO →
      fdt (final r) !! fd = fdt s0 !! fd)).
Proof.
  split.
  - split; [reflexivity|]. split; [reflexivity|]. split; [reflexivity|].
    apply (end_accepts_any_open_descriptor s_redirected 0 tty); reflexivity.
  - split; [reflexivity|]. split; [reflexivity|].
    apply (end_accepts_any_open_descriptor s0 STDERR_FILENO tty); reflexivity.
Defined.

Lemma end_twice_raises_witness :
  let s1 := final (exec posix (begin_redirect_stderr "out.err" false) s0) in
  let s2 := final (exec posix (end_redirect_stderr 3) s1) in
  let r3 := exec posix (end_redirect_stderr 3) s2 in
  result (exec posix (begin_redirect_stderr "out.err" false) s0) = Returned 3 ∧
  result r3 =
    Raised ("Error while calling dup2 in end_redirect_stderr: errno="
            +:+ fmt_d EBADF) ∧
  trace r3 = [Ev (Dup2 3 STDERR_FILENO) (-1); Ev Errno EBADF] ∧
  fdt (final r3) = fdt s0.
Proof.
  cbv zeta. split; [reflexivity|].
  apply (end_twice_raises s0 "out.err" false 3). reflexivity.
Defined.

Lemma get_oflag_never_minus_one_witness :
  get_oflag "a" = Ret 1025 ∧
  1025 ≠ -1 ∧ access_mode 1025 = O_WRONLY ∧ has_flag 1025 O_TRUNC = false.
Proof.
  split; [reflexivity|].
  apply (get_oflag_never_minus_one "a" 1025). reflexivity.
Defined.

Lemma begin_opens_with_mode_0644_witness :
  let r := exec posix (begin_redirect_stderr "out.err" false) s0 in
  let tok := (posix (Dup STDERR_FILENO) s0).1 in
  let w1 := (posix (Dup STDERR_FILENO) s0).2 in
  let fd := (posix (Open "out.err" (oflag_of false) open_mode) w1).1 in
  (tok = 3 ∧ fd = 4 ∧ open_mode = 420 ∧
   trace r = [Ev (Dup 2) 3; Ev (Open "out.err" 65 420) 4;
              Ev (Dup2 4 2) 2; Ev (Close 4) 0]) ∧
  open_mode = 6 * 8 ^ 2 + 4 * 8 + 4 ∧
  map (Z.testbit open_mode) [8; 7; 6; 5; 4; 3; 2; 1; 0]
    = [true; true; false; true; false; false; true; false; false] ∧
  (∀ path oflag mode ret,
     In (Ev (Open path oflag mode) ret) (trace r) →
     path = "out.err" ∧ oflag = oflag_of false ∧ mode = open_mode) ∧
  (∀ tok, In (Ev (Dup STDERR_FILENO) tok) (trace r) → 0 ≤ tok →
     ∃ ret, In (Ev (Open "out.err" (oflag_of false) open_mode) ret) (trace r)) ∧
  ((tok < 0 ∧
    ∃ code, trace r = [Ev (Dup STDERR_FILENO) tok; Ev Errno code]) ∨
   (0 ≤ tok ∧
    ∃ rest, trace r =
      Ev (Dup STDERR_FILENO) tok ::
      Ev (Open "out.err" (oflag_of false) open_mode) fd :: rest)).
Proof.
  cbv zeta. split; [repeat split; reflexivity|].
  exact (begin_opens_with_mode_0644 posix s0 "out.err" false).
Defined.
